(** * Auction controller: create, list, detail and republish

    A shallow embedding of the auction controller (addNewAuctionItem,
    getAllItems, getAuctionDetails, republishItem) and of the error
    middleware (ErrorHandler, errorMiddleware), with the properties of the
    auction lifecycle stated over it.

    Conventions of the embedding.
    - The three Mongoose collections are finite maps from the document
      [_id] to the document; a handler is a function from the store to an
      outcome and the store it leaves behind.
    - A handler either calls [next(err)], sends a JSON response, or lets an
      exception escape its body (which the [catchAsyncErrors] wrapper hands
      to the error middleware).
    - [Date.now()] is read several times by a handler; every reading is a
      value of its own, given by the environment of the request.
    - Text fields of a request body are strings; an absent field and an
      empty one are both falsy and are both written as the empty string.
    - A JavaScript number is an IEEE-754 double: the Standard Library's
      [spec_float] with precision 53 and exponent bound 1024, with its
      [SFsub] and [SFadd] for [-=] and [+=].  The settlement figures
      ([moneySpent], [auctionsWon], [unpaidCommission], [currentBid]) are
      such numbers.  The amount of a bid enters the controller only through
      the sign of a difference (line 144) and is kept as an integer.
    - The writes of republishItem (lines 234, 237, 252 and 253) may be
      rejected by the store; whether they are is part of the environment of
      the request.  A rejected write has written nothing. *)

From stdpp Require Import gmap strings list sorting.
From Stdlib Require Import SpecFloat.

Local Open Scope string_scope.
Local Open Scope Z_scope.

(** ** JavaScript values used by the controller *)

(** The time value of a [Date]: milliseconds since the epoch, or NaN for an
    invalid date. *)
Inductive time_value : Type :=
  | TimeMs (ms : Z)
  | InvalidDate.

(** Relational comparison of two time values; every comparison with NaN is
    false. *)
Definition time_lt (a b : time_value) : bool :=
  match a, b with
  | TimeMs x, TimeMs y => bool_decide (x < y)
  | _, _ => false
  end.

Definition time_gt (a b : time_value) : bool :=
  match a, b with
  | TimeMs x, TimeMs y => bool_decide (x > y)
  | _, _ => false
  end.

Definition time_ge (a b : time_value) : bool :=
  match a, b with
  | TimeMs x, TimeMs y => bool_decide (x >= y)
  | _, _ => false
  end.

(** [!s] is false exactly for a non-empty string. *)
Definition truthy (s : string) : bool := negb (String.eqb s "").

(** ** Errors (part_001) *)

(** An error object: the fields the middleware reads.  [err_errors] holds the
    messages of the values of [err.errors] (empty when it is undefined). *)
Record js_error : Type := mkError {
  err_name : string;
  err_message : string;
  err_statusCode : option Z;
  err_path : string;
  err_value : string;
  err_errors : list string
}.

(** [new ErrorHandler(message, statusCode)]; the second argument may be left
    out, which leaves [statusCode] undefined. *)
Definition ErrorHandler (message : string) (statusCode : option Z) : js_error :=
  mkError "Error" message statusCode "" "" [].

(** A [TypeError] raised by the runtime on a property access on [null] or
    [undefined]. *)
Definition TypeError (message : string) : js_error :=
  mkError "TypeError" message None "" "" [].

(** [err.statusCode || 500]: undefined and 0 are falsy. *)
Definition statusCode_or (c : option Z) (d : Z) : Z :=
  match c with
  | Some n => if bool_decide (n = 0) then d else n
  | None => d
  end.

(** [err.message || d]. *)
Definition message_or (m d : string) : string :=
  if truthy m then m else d.

Definition set_status_message (err : js_error) (c : Z) (m : string) : js_error :=
  mkError (err_name err) m (Some c) (err_path err) (err_value err) (err_errors err).

(** [messages.join(", ")]. *)
Fixpoint join (sep : string) (l : list string) : string :=
  match l with
  | [] => ""
  | [x] => x
  | x :: l' => x ++ sep ++ join sep l'
  end.

(** The body of an error response: [{ success: false, message }]. *)
Record error_response : Type := mkErrorResponse {
  er_status : option Z;
  er_success : bool;
  er_message : string
}.

(** [errorMiddleware]: the four tests on [err.name] run one after the other,
    each on the error the previous one left. *)
Definition errorMiddleware (err0 : js_error) : error_response :=
  let err := set_status_message err0
               (statusCode_or (err_statusCode err0) 500)
               (message_or (err_message err0) "Internal Server Error") in
  let err := if String.eqb (err_name err) "JsonWebTokenError"
             then ErrorHandler "Invalid token. Please try again." (Some 401)
             else err in
  let err := if String.eqb (err_name err) "TokenExpiredError"
             then ErrorHandler "Token has expired. Please login again." (Some 401)
             else err in
  let err := if String.eqb (err_name err) "CastError"
             then ErrorHandler ("Invalid " ++ err_path err ++ ": " ++ err_value err)
                               (Some 400)
             else err in
  let err := if String.eqb (err_name err) "ValidationError"
             then ErrorHandler (join ", " (err_errors err)) (Some 400)
             else err in
  mkErrorResponse (err_statusCode err) false (err_message err).

(** What a handler body does with a request. *)
Inductive outcome (B : Type) : Type :=
  | Next (err : js_error)
  | Throws (exn : js_error)
  | Json (status : Z) (body : B).
Arguments Next {B} err.
Arguments Throws {B} exn.
Arguments Json {B} status body.

(** The response the client gets once the outcome has gone through the error
    middleware: its status code. *)
Definition response_status {B : Type} (o : outcome B) : option Z :=
  match o with
  | Next err => er_status (errorMiddleware err)
  | Throws exn => er_status (errorMiddleware exn)
  | Json status _ => Some status
  end.

(** ** Numbers *)

(** A JavaScript number, the number an integer literal denotes (the double
    nearest to it), and the arithmetic of [-=] and [+=]. *)
Abbreviation number := spec_float.
Abbreviation num z := (binary_normalize 53 1024 z 0 false).
Abbreviation number_sub := (SFsub 53 1024).
Abbreviation number_add := (SFadd 53 1024).

(** The exponent and the mantissa of the double that is the whole number
    [p], for [p] below 2^53: the mantissa has 53 binary digits. *)
Definition whole_exponent (p : positive) : Z := Z.pos (digits2_pos p) - 53.
Definition whole_mantissa (p : positive) : positive :=
  Z.to_pos (Z.pos p * 2 ^ (53 - Z.pos (digits2_pos p))).

(** ** Documents *)

Record Image : Type := mkImage {
  public_id : string;
  url : string
}.

(** An auction document.  [B] is the type of its [bids] field: a list of Bid
    ids as stored, a list of Bid documents once populated, and [None] once
    the field has been projected away.

    Modelled from the spec: models/auctionSchema.js is not among the
    sources; the fields are those the controller writes and reads, with the
    defaults of the spec's data model ([currentBid] 0, no [highestBidder], no
    bids, [commissionCalculated] false).  [startTime] and [endTime] are kept
    as written and read through [new Date(...)], as the controller does. *)
Record AuctionOf (B : Type) : Type := mkAuction {
  title : string;
  description : string;
  category : string;
  condition : string;
  startingBid : string;
  startTime : string;
  endTime : string;
  image : Image;
  createdBy : string;
  currentBid : number;
  highestBidder : option string;
  bids : B;
  commissionCalculated : bool
}.
Arguments mkAuction {B}.
Arguments title {B}.
Arguments description {B}.
Arguments category {B}.
Arguments condition {B}.
Arguments startingBid {B}.
Arguments startTime {B}.
Arguments endTime {B}.
Arguments image {B}.
Arguments createdBy {B}.
Arguments currentBid {B}.
Arguments highestBidder {B}.
Arguments bids {B}.
Arguments commissionCalculated {B}.

Abbreviation Auction := (AuctionOf (list string)).

(** Modelled from the spec: models/bidSchema.js is not among the sources;
    [auctionItem] and [amount] are the fields the controller uses, [bidder]
    is the spec's reference to the bidding user. *)
Record Bid : Type := mkBid {
  auctionItem : string;
  bidder : string;
  amount : Z
}.

(** Modelled from the spec: models/userSchema.js is not among the sources;
    only the settlement fields the controller touches are kept. *)
Record User : Type := mkUser {
  moneySpent : number;
  auctionsWon : number;
  unpaidCommission : number
}.

(** The store: the Auction, Bid and User collections, keyed by [_id]. *)
Record store : Type := mkStore {
  auctions : gmap string Auction;
  bidRecords : gmap string Bid;
  users : gmap string User
}.

Definition with_auctions (st : store) (m : gmap string Auction) : store :=
  mkStore m (bidRecords st) (users st).
Definition with_bidRecords (st : store) (m : gmap string Bid) : store :=
  mkStore (auctions st) m (users st).
Definition with_users (st : store) (m : gmap string User) : store :=
  mkStore (auctions st) (bidRecords st) m.

(** Replace the [bids] field, whatever its type. *)
Definition set_bids {B C : Type} (a : AuctionOf B) (b : C) : AuctionOf C :=
  mkAuction (title a) (description a) (category a) (condition a)
            (startingBid a) (startTime a) (endTime a) (image a) (createdBy a)
            (currentBid a) (highestBidder a) b (commissionCalculated a).

(** Two auction documents agree on every field but [bids]. *)
Abbreviation same_fields d x :=
  (title d = title x ∧ description d = description x ∧
   category d = category x ∧ condition d = condition x ∧
   startingBid d = startingBid x ∧ startTime d = startTime x ∧
   endTime d = endTime x ∧ image d = image x ∧ createdBy d = createdBy x ∧
   currentBid d = currentBid x ∧ highestBidder d = highestBidder x ∧
   commissionCalculated d = commissionCalculated x).

(** ** Requests and responses *)

Record UploadedFile : Type := mkFile {
  mimetype : string;
  tempFilePath : string
}.

Record create_body : Type := mkCreateBody {
  body_title : string;
  body_description : string;
  body_category : string;
  body_condition : string;
  body_startingBid : string;
  body_startTime : string;
  body_endTime : string
}.

(** [req.files] is undefined or an object from field names to files;
    [req.user._id] comes from the authentication layer. *)
Record create_request : Type := mkCreateRequest {
  req_files : option (gmap string UploadedFile);
  req_body : create_body;
  req_user : string
}.

(** What the image host answers to [cloudinary.uploader.upload]: the promise
    is rejected, or it resolves to a response object ([None] for
    [undefined]).  With [undefined] the test of line 85 holds and line 88
    then reads [cloudinaryResponse.error], which throws inside the [try]. *)
Record cloudinary_response : Type := mkCloudinary {
  cl_error : bool;
  cl_public_id : string;
  cl_secure_url : string
}.

Inductive upload_outcome : Type :=
  | UploadRejected (error : js_error)
  | UploadResolved (response : option cloudinary_response).

(** What lies outside the controller during one create request: the two
    readings of [Date.now()] (lines 50 and 70), the answer of the image host
    and the [_id] the store gives the new document. *)
Record create_env : Type := mkCreateEnv {
  now_schedule : Z;
  now_query : Z;
  upload : upload_outcome;
  new_id : string
}.

Record create_response : Type := mkCreateResponse {
  cres_success : bool;
  cres_message : string;
  cres_auctionItem : string * Auction
}.

Record list_response : Type := mkListResponse {
  lres_success : bool;
  lres_items : list (string * AuctionOf (option (list string)))
}.

Record details_response : Type := mkDetailsResponse {
  dres_success : bool;
  dres_auctionItem : string * AuctionOf (list (string * Bid));
  dres_bidders : list (string * Bid)
}.

Record republish_request : Type := mkRepublishRequest {
  rp_id : string;
  rp_startTime : string;
  rp_endTime : string;
  rp_user : string
}.

(** What lies outside the controller during one republish request: the two
    readings of [Date.now()] (lines 198 and 212), and for each write the
    error it is rejected with, if it is: [highestBidder.save()] (line 234),
    [Auction.findByIdAndUpdate] (line 237, where [runValidators] and the
    casts of the schema can refuse the update), [Bid.deleteMany] (line 252)
    and [User.findByIdAndUpdate] (line 253).  The last two run side by side
    under [Promise.all]; when both are rejected, [bids_reject_first] tells
    which rejection comes first. *)
Record republish_env : Type := mkRepublishEnv {
  now_active : Z;
  now_window : Z;
  save_winner : option js_error;
  update_auction : option js_error;
  delete_bids : option js_error;
  clear_commission : option js_error;
  bids_reject_first : bool
}.

Record republish_response : Type := mkRepublishResponse {
  rres_success : bool;
  rres_auctionItem : string * Auction;
  rres_message : string
}.

Record my_items_response : Type := mkMyItemsResponse {
  mres_success : bool;
  mres_items : list (string * Auction)
}.

Record remove_response : Type := mkRemoveResponse {
  dlres_success : bool;
  dlres_message : string
}.

(** ** [Array.prototype.sort] *)

(** The sort is stable and puts [a] before [b] when [compareFn a b] is
    negative; inserting the elements from the right, each before the first
    element it does not come after, computes that order. *)
Section array_sort.
Context {A : Type} (compareFn : A → A → Z).

Fixpoint sort_insert (x : A) (l : list A) : list A :=
  match l with
  | [] => [x]
  | y :: l' =>
      if bool_decide (compareFn x y ≤ 0) then x :: y :: l'
      else y :: sort_insert x l'
  end.

Definition array_sort (l : list A) : list A := foldr sort_insert [] l.

(** [x] is not placed after [y]. *)
Definition not_after (x y : A) : Prop := compareFn x y ≤ 0.
End array_sort.

(** The comparator of getAuctionDetails: [(a, b) => b.amount - a.amount]. *)
Definition by_amount_desc (a b : string * Bid) : Z := amount b.2 - amount a.2.

(** ** The controller (part_000) *)

Definition allowedFormats : list string :=
  ["image/png"; "image/jpeg"; "image/webp"].

(** [allowedFormats.includes(m)]. *)
Definition includes (l : list string) (m : string) : bool :=
  existsb (String.eqb m) l.

Section controller.
(** [new Date(s)] for a string [s] and [mongoose.Types.ObjectId.isValid]
    belong to the runtime and to Mongoose. *)
Variable newDate : string → time_value.
Variable isValid : string → bool.

(** [Auction.find({ createdBy: uid, endTime: { $gt: now } })].

    Modelled from the spec: the schema is not among the sources; the spec
    gives [endTime] as a timestamp, so the query compares the time of the
    stored field with [now]. *)
Definition find_unended (uid : string) (now : Z) (st : store)
  : list (string * Auction) :=
  filter (λ d, createdBy d.2 = uid ∧
               time_gt (newDate (endTime d.2)) (TimeMs now) = true)
         (map_to_list (auctions st)).

(** The guards of addNewAuctionItem that read the request only (lines
    11-66): the outcome of the first one that fires, if any. *)
Definition create_checks (now : Z) (req : create_request)
  : option (outcome create_response) :=
  match req_files req with
  | None => Some (Next (ErrorHandler "Auction item image is required." (Some 400)))
  | Some files =>
  if bool_decide (files = ∅)
  then Some (Next (ErrorHandler "Auction item image is required." (Some 400)))
  else
  match files !! "image" with
  | None =>
      Some (Throws (TypeError
                      "Cannot read properties of undefined (reading 'mimetype')"))
  | Some image =>
  if negb (includes allowedFormats (mimetype image))
  then Some (Next (ErrorHandler
                     ("Invalid file format: " ++ mimetype image ++
                      ". Only PNG, JPEG, and WEBP formats are allowed.")
                     (Some 400)))
  else
  let b := req_body req in
  if negb (truthy (body_title b)) || negb (truthy (body_description b)) ||
     negb (truthy (body_category b)) || negb (truthy (body_condition b)) ||
     negb (truthy (body_startingBid b)) || negb (truthy (body_startTime b)) ||
     negb (truthy (body_endTime b))
  then Some (Next (ErrorHandler "Please provide all auction details." (Some 400)))
  else
  if time_lt (newDate (body_startTime b)) (TimeMs now)
  then Some (Next (ErrorHandler
                     "Auction starting time must be greater than the present time."
                     (Some 400)))
  else
  if time_ge (newDate (body_startTime b)) (newDate (body_endTime b))
  then Some (Next (ErrorHandler
                     "Auction starting time must be less than the ending time."
                     (Some 400)))
  else None
  end
  end.

(** [addNewAuctionItem]: the guards, the query for the seller's auctions
    (lines 68-75), then the upload and [Auction.create] inside the [try]
    (lines 77-119).  The store is taken to accept the new document. *)
Definition addNewAuctionItem (env : create_env) (req : create_request)
    (st : store) : outcome create_response * store :=
  match create_checks (now_schedule env) req with
  | Some failed => (failed, st)
  | None =>
  let b := req_body req in
  let alreadyOneAuctionActive := find_unended (req_user req) (now_query env) st in
  if bool_decide (0 < length alreadyOneAuctionActive)%nat
  then (Next (ErrorHandler "You already have one active auction." (Some 400)), st)
  else
  match upload env with
  | UploadRejected error =>
      (Next (ErrorHandler (message_or (err_message error) "Failed to create auction.")
                          (Some 500)), st)
  | UploadResolved None =>
      (Next (ErrorHandler "Cannot read properties of undefined (reading 'error')"
                          (Some 500)), st)
  | UploadResolved (Some cloudinaryResponse) =>
      if cl_error cloudinaryResponse
      then (Next (ErrorHandler "Failed to upload auction image to cloudinary."
                               (Some 500)), st)
      else
      let auctionItem : Auction :=
        mkAuction (body_title b) (body_description b) (body_category b)
                  (body_condition b) (body_startingBid b) (body_startTime b)
                  (body_endTime b)
                  (mkImage (cl_public_id cloudinaryResponse)
                           (cl_secure_url cloudinaryResponse))
                  (req_user req) (num 0) None [] false in
      (Json 201
         (mkCreateResponse true
            ("Auction item created and will be listed on the auction page at "
             ++ body_startTime b)
            (new_id env, auctionItem)),
       with_auctions st (<[new_id env := auctionItem]> (auctions st)))
  end
  end.

(** [getAllItems]: [Auction.find().select("-bids")]. *)
Definition select_minus_bids (d : string * Auction)
  : string * AuctionOf (option (list string)) :=
  (d.1, set_bids d.2 None).

Definition getAllItems (st : store) : outcome list_response * store :=
  let items := select_minus_bids <$> map_to_list (auctions st) in
  (Json 200 (mkListResponse true items), st).

(** [populate("bids")]: every reference is replaced by the Bid document it
    names; a reference that names no document is left out. *)
Definition populate (st : store) (refs : list string) : list (string * Bid) :=
  omap (λ r, (λ b, (r, b)) <$> bidRecords st !! r) refs.

(** [getAuctionDetails].  [sort] works in place, so [auctionItem.bids] and
    [bidders] are one and the same sorted array. *)
Definition getAuctionDetails (id : string) (st : store)
  : outcome details_response * store :=
  if negb (isValid id)
  then (Next (ErrorHandler "Invalid auction ID format." (Some 400)), st)
  else
  match auctions st !! id with
  | None => (Next (ErrorHandler "Auction not found." (Some 404)), st)
  | Some a =>
      let bidders := array_sort by_amount_desc (populate st (bids a)) in
      (Json 200 (mkDetailsResponse true (id, set_bids a bidders) bidders), st)
  end.

(** [getMyAuctionItems]: [Auction.find({ createdBy: req.user._id })], with
    no projection. *)
Definition getMyAuctionItems (uid : string) (st : store)
  : outcome my_items_response * store :=
  let items := filter (λ d : string * Auction, createdBy d.2 = uid)
                      (map_to_list (auctions st)) in
  (Json 200 (mkMyItemsResponse true items), st).

(** [removeFromAuction]: [auctionItem.deleteOne()] removes the auction
    document; the controller issues no other write. *)
Definition removeFromAuction (id : string) (st : store)
  : outcome remove_response * store :=
  if negb (isValid id)
  then (Next (ErrorHandler "Invalid auction ID format." (Some 400)), st)
  else
  match auctions st !! id with
  | None => (Next (ErrorHandler "Auction not found." (Some 404)), st)
  | Some auctionItem =>
      (Json 200 (mkRemoveResponse true "Auction item deleted successfully."),
       with_auctions st (delete id (auctions st)))
  end.

(** At most one auction per seller has its [endTime] after [now]: the
    condition the query of addNewAuctionItem (lines 68-75) guards. *)
Definition one_unended_per_seller (now : Z) (st : store) : Prop :=
  ∀ id1 id2 a1 a2,
    auctions st !! id1 = Some a1 → auctions st !! id2 = Some a2 →
    createdBy a1 = createdBy a2 →
    time_gt (newDate (endTime a1)) (TimeMs now) = true →
    time_gt (newDate (endTime a2)) (TimeMs now) = true →
    id1 = id2.

(** [Auction.findByIdAndUpdate(id, update, { new: true, runValidators: true })]:
    the promise is rejected with [rejection] (a validation or cast error of
    the schema, or a failure of the store) and nothing is written; or it
    gives the updated document, or null when no document has this id. *)
Definition Auction_findByIdAndUpdate (rejection : option js_error) (id : string)
    (update : Auction → Auction) (st : store)
  : js_error + (option Auction * store) :=
  match rejection with
  | Some exn => inl exn
  | None =>
      match auctions st !! id with
      | None => inr (None, st)
      | Some a =>
          inr (Some (update a),
               with_auctions st (<[id := update a]> (auctions st)))
      end
  end.

(** [Promise.all] of two promises: fulfilled when both are, rejected with
    the rejection that comes first otherwise. *)
Definition Promise_all (r1 r2 : option js_error) (first_comes_first : bool)
  : option js_error :=
  match r1, r2 with
  | None, None => None
  | Some exn, None => Some exn
  | None, Some exn => Some exn
  | Some exn1, Some exn2 => Some (if first_comes_first then exn1 else exn2)
  end.

(** The update document of republishItem (lines 239-246). *)
Definition republish_update (newStart newEnd : string) (a : Auction) : Auction :=
  mkAuction (title a) (description a) (category a) (condition a)
            (startingBid a) newStart newEnd (image a) (createdBy a)
            (num 0) None [] false.

(** [Bid.deleteMany({ auctionItem: id })]. *)
Definition Bid_deleteMany (id : string) (st : store) : store :=
  with_bidRecords st (filter (λ d, auctionItem d.2 ≠ id) (bidRecords st)).

(** [User.findByIdAndUpdate(uid, { unpaidCommission: 0 })]. *)
Definition clear_unpaidCommission (uid : string) (st : store) : store :=
  with_users st
    (alter (λ u, mkUser (moneySpent u) (auctionsWon u) (num 0)) uid (users st)).

(** The reversal of the winner's settlement (lines 230-235):
    [User.findById] gives null when the winner names no user, and the
    assignment to [moneySpent] then throws; the two subtractions are those
    of doubles; [save] is rejected with [rejection], if it is. *)
Definition reverse_settlement (rejection : option js_error)
    (auctionItem : Auction) (st : store) : js_error + store :=
  match highestBidder auctionItem with
  | None => inr st
  | Some winner =>
      match users st !! winner with
      | None =>
          inl (TypeError "Cannot read properties of null (reading 'moneySpent')")
      | Some highestBidder =>
          match rejection with
          | Some exn => inl exn
          | None =>
              inr (with_users st
                     (<[winner := mkUser
                          (number_sub (moneySpent highestBidder)
                                      (currentBid auctionItem))
                          (number_sub (auctionsWon highestBidder) (num 1))
                          (unpaidCommission highestBidder)]> (users st)))
          end
      end
  end.

(** [republishItem]. *)
Definition republishItem (env : republish_env)
    (req : republish_request) (st : store)
  : outcome republish_response * store :=
  let id := rp_id req in
  if negb (isValid id)
  then (Next (ErrorHandler "Invalid auction ID format." (Some 400)), st)
  else
  match auctions st !! id with
  | None => (Next (ErrorHandler "Auction not found." (Some 404)), st)
  | Some auctionItem =>
  if time_gt (newDate (endTime auctionItem)) (TimeMs (now_active env))
  then (Next (ErrorHandler "Auction is already active, cannot republish."
                           (Some 400)), st)
  else
  if negb (truthy (rp_startTime req)) || negb (truthy (rp_endTime req))
  then (Next (ErrorHandler "Start time and end time for republish are mandatory."
                           None), st)
  else
  if time_lt (newDate (rp_startTime req)) (TimeMs (now_window env))
  then (Next (ErrorHandler
                "Auction starting time must be greater than the present time."
                (Some 400)), st)
  else
  if time_ge (newDate (rp_startTime req)) (newDate (rp_endTime req))
  then (Next (ErrorHandler
                "Auction starting time must be less than the ending time."
                (Some 400)), st)
  else
  match reverse_settlement (save_winner env) auctionItem st with
  | inl exn => (Throws exn, st)
  | inr st1 =>
      match Auction_findByIdAndUpdate (update_auction env) id
              (republish_update (rp_startTime req) (rp_endTime req)) st1 with
      | inl exn => (Throws exn, st1)
      | inr (None, st2) =>
          (Throws (TypeError "Cannot read properties of null (reading '_id')"), st2)
      | inr (Some auctionItem', st2) =>
          let st3 := match delete_bids env with
                     | None => Bid_deleteMany id st2
                     | Some _ => st2
                     end in
          let st4 := match clear_commission env with
                     | None => clear_unpaidCommission (rp_user req) st3
                     | Some _ => st3
                     end in
          match Promise_all (delete_bids env) (clear_commission env)
                            (bids_reject_first env) with
          | Some exn => (Throws exn, st4)
          | None =>
              (Json 200
                 (mkRepublishResponse true (id, auctionItem')
                    ("Auction republished and will be active on "
                     ++ rp_startTime req)),
               st4)
          end
      end
  end
  end.

(** The store a republish leaves behind (lines 237-254), given the store
    [st1] the settlement reversal left and the auction [a] found at line 192. *)
Definition republished (req : republish_request) (a : Auction) (st1 : store)
  : store :=
  clear_unpaidCommission (rp_user req)
    (Bid_deleteMany (rp_id req)
       (with_auctions st1
          (<[rp_id req := republish_update (rp_startTime req) (rp_endTime req) a]>
             (auctions st1)))).

(** ** The close settlement *)

(** The fee schedule is a policy parameter of the spec. *)
Variable commission : number → number.

(** The auction with [commissionCalculated] set. *)
Definition marked_settled (a : Auction) : Auction :=
  mkAuction (title a) (description a) (category a) (condition a)
            (startingBid a) (startTime a) (endTime a) (image a) (createdBy a)
            (currentBid a) (highestBidder a) (bids a) true.

(** Modelled from the spec: the Auction Closer (the scheduled sweep of
    §4.4) is not among the sources.  For an auction whose [endTime] has
    passed and whose [commissionCalculated] is false: with a
    [highestBidder], the winner gets [moneySpent += currentBid],
    [auctionsWon += 1], [unpaidCommission += commission(currentBid)]; in
    every case [commissionCalculated] becomes true.  An auction already
    marked is left alone.  The spec does not say what happens when the
    winner names no user; the auction is then only marked. *)
Definition closeAuction (now : Z) (id : string) (st : store) : store :=
  match auctions st !! id with
  | None => st
  | Some a =>
      if commissionCalculated a then st
      else if negb (time_ge (TimeMs now) (newDate (endTime a))) then st
      else
        let marked := with_auctions st (<[id := marked_settled a]> (auctions st)) in
        match highestBidder a with
        | None => marked
        | Some winner =>
            match users st !! winner with
            | None => marked
            | Some u =>
                with_users marked
                  (<[winner := mkUser
                       (number_add (moneySpent u) (currentBid a))
                       (number_add (auctionsWon u) (num 1))
                       (number_add (unpaidCommission u)
                                   (commission (currentBid a)))]>
                     (users st))
            end
        end
  end.

End controller.

(** ** Sample data

    A concrete runtime and a few stores, used where a statement is evaluated
    on an input. *)

(** [new Date(s)] on the ISO strings of the samples; any other string is
    given the invalid date. *)
Definition sampleDate (s : string) : time_value :=
  if String.eqb s "2029-12-01T00:00:00.000Z" then TimeMs 1890777600000
  else if String.eqb s "2030-01-01T00:00:00.000Z" then TimeMs 1893456000000
  else if String.eqb s "2030-01-02T00:00:00.000Z" then TimeMs 1893542400000
  else if String.eqb s "2030-01-03T00:00:00.000Z" then TimeMs 1893628800000
  else if String.eqb s "2030-01-04T00:00:00.000Z" then TimeMs 1893715200000
  else InvalidDate.

Definition is_hex_digit (c : Ascii.ascii) : bool :=
  let n := Ascii.N_of_ascii c in
  ((48 <=? n) && (n <=? 57) || (97 <=? n) && (n <=? 102) ||
   (65 <=? n) && (n <=? 70))%N.

(** The 24-digit hexadecimal form of an ObjectId. *)
Definition isHexObjectId (s : string) : bool :=
  (String.length s =? 24)%nat && forallb is_hex_digit (String.list_ascii_of_string s).

Definition flatRate (winningAmount : number) : number :=
  SFdiv 53 1024 winningAmount (num 20).

Definition auctionA : string := "65a000000000000000000001".
Definition auctionB : string := "65a000000000000000000002".
Definition seller : string := "65b000000000000000000001".
Definition winner : string := "65b000000000000000000002".
Definition otherBidder : string := "65b000000000000000000003".
Definition deletedUser : string := "65b000000000000000000009".
Definition bid1 : string := "65c000000000000000000001".
Definition bid2 : string := "65c000000000000000000002".
Definition bid3 : string := "65c000000000000000000003".
Definition bid9 : string := "65c000000000000000000009".

Definition sampleImage : Image :=
  mkImage "auctions/lamp" "https://res.cloudinary.com/demo/auctions/lamp.png".

(** An auction that ran through December 2029 and ended with a bid of 200 by
    [winner]. *)
Definition endedAuction (hb : option string) (settled : bool) : Auction :=
  mkAuction "Lamp" "Brass desk lamp" "Furniture" "Used" "100"
            "2029-12-01T00:00:00.000Z" "2030-01-01T00:00:00.000Z"
            sampleImage seller (num 200) hb [bid1; bid2; bid3] settled.

(** An auction scheduled for 3 January 2030, not yet started on 1 January. *)
Definition scheduledAuction : Auction :=
  mkAuction "Chair" "Oak chair" "Furniture" "New" "50"
            "2030-01-03T00:00:00.000Z" "2030-01-04T00:00:00.000Z"
            sampleImage seller (num 0) None [] false.

Definition sampleBids : gmap string Bid :=
  <[bid1 := mkBid auctionA otherBidder 150]>
  (<[bid2 := mkBid auctionA winner 200]>
  (<[bid3 := mkBid auctionA otherBidder 120]>
  (<[bid9 := mkBid auctionB otherBidder 60]> ∅))).

(** Before the close: nothing settled yet. *)
Definition unsettledStore : store :=
  mkStore (<[auctionA := endedAuction (Some winner) false]> ∅)
          sampleBids
          (<[seller := mkUser (num 0) (num 0) (num 35)]>
           (<[winner := mkUser (num 500) (num 2) (num 0)]>
           (<[otherBidder := mkUser (num 0) (num 0) (num 0)]> ∅))).

(** After the close: the winner has been charged. *)
Definition settledStore : store :=
  mkStore (<[auctionA := endedAuction (Some winner) true]> ∅)
          sampleBids
          (<[seller := mkUser (num 0) (num 0) (num 35)]>
           (<[winner := mkUser (num 700) (num 3) (num 10)]>
           (<[otherBidder := mkUser (num 0) (num 0) (num 0)]> ∅))).

(** The winner's account has been removed since the close. *)
Definition orphanStore : store :=
  mkStore (<[auctionA := endedAuction (Some deletedUser) true]> ∅)
          sampleBids
          (<[seller := mkUser (num 0) (num 0) (num 35)]> ∅).

(** The seller has one auction, scheduled and not started. *)
Definition scheduledStore : store :=
  mkStore (<[auctionB := scheduledAuction]> ∅) ∅
          (<[seller := mkUser (num 0) (num 0) (num 0)]> ∅).

Definition emptyStore : store := mkStore ∅ ∅ ∅.

(** A republish environment in which the clock reads [now] and no write is
    rejected. *)
Definition republishEnv (now : Z) : republish_env :=
  mkRepublishEnv now now None None None None true.

(** A cast error of the kind Mongoose raises when a value does not fit the
    type of its path. *)
Definition castError : js_error :=
  mkError "CastError" "Cast to date failed" None "startTime" "tomorrow" [].

(** A republish environment in which the update of the auction (line 237)
    is rejected with [castError]. *)
Definition republishEnvUpdateRejected (now : Z) : republish_env :=
  mkRepublishEnv now now None (Some castError) None None true.

(** Republish of [auctionA] by its seller, for 3 to 4 January 2030. *)
Definition republishRequest : republish_request :=
  mkRepublishRequest auctionA "2030-01-03T00:00:00.000Z" "2030-01-04T00:00:00.000Z"
                     seller.

(** The same request without its [startTime]. *)
Definition republishNoStart : republish_request :=
  mkRepublishRequest auctionA "" "2030-01-04T00:00:00.000Z" seller.

(** 2 January 2030, 00:00 UTC. *)
Definition jan2 : Z := 1893542400000.

(** 1 January 2030, 00:00 UTC. *)
Definition jan1 : Z := 1893456000000.

Definition pngFile : UploadedFile := mkFile "image/png" "/tmp/upload-1".

Definition createRequest (startTime endTime : string) : create_request :=
  mkCreateRequest (Some (<["image" := pngFile]> ∅))
    (mkCreateBody "Vase" "Blue vase" "Decor" "New" "20" startTime endTime)
    seller.

Definition uploadOk : upload_outcome :=
  UploadResolved (Some (mkCloudinary false "auctions/vase"
                          "https://res.cloudinary.com/demo/auctions/vase.png")).

Definition createEnv (now : Z) : create_env :=
  mkCreateEnv now now uploadOk auctionA.

(** A republish request for the scheduled auction. *)
Definition republishScheduled : republish_request :=
  mkRepublishRequest auctionB "2030-01-03T00:00:00.000Z" "2030-01-04T00:00:00.000Z"
                     seller.

(** What [republishRequest] gets on [settledStore] on 2 January 2030. *)
Definition republishedBody : republish_response :=
  mkRepublishResponse true
    (auctionA,
     republish_update "2030-01-03T00:00:00.000Z" "2030-01-04T00:00:00.000Z"
       (endedAuction (Some winner) true))
    "Auction republished and will be active on 2030-01-03T00:00:00.000Z".

Definition republishedStore : store :=
  (republishItem sampleDate isHexObjectId (republishEnv jan2) republishRequest
     settledStore).2.

(** ** The spec's notion of an active auction *)

(** [startTime ≤ now < endTime], both read as dates. *)
Definition active_at (newDate : string → time_value) (now : Z) (a : Auction) : Prop :=
  ∃ s e, newDate (startTime a) = TimeMs s ∧ newDate (endTime a) = TimeMs e ∧
         s ≤ now < e.

(** ** The document of a create request *)

(** The document addNewAuctionItem hands to [Auction.create] (lines 95-108),
    given the answer of the image host. *)
Definition created_auction (req : create_request) (r : cloudinary_response)
  : Auction :=
  mkAuction (body_title (req_body req)) (body_description (req_body req))
            (body_category (req_body req)) (body_condition (req_body req))
            (body_startingBid (req_body req)) (body_startTime (req_body req))
            (body_endTime (req_body req))
            (mkImage (cl_public_id r) (cl_secure_url r))
            (req_user req) (num 0) None [] false.

(** ** More sample data *)

(** A create environment with its own clock reading and new [_id]. *)
Definition createEnvWith (now : Z) (id : string) : create_env :=
  mkCreateEnv now now uploadOk id.

(** A well-formed create request for 2 to 3 January 2030. *)
Definition createJan2 : create_request :=
  createRequest "2030-01-02T00:00:00.000Z" "2030-01-03T00:00:00.000Z".

(** The store after [createJan2] on the empty store on 1 January 2030. *)
Definition createdStore : store :=
  (addNewAuctionItem sampleDate (createEnv jan1) createJan2 emptyStore).2.

Definition createdBody : create_response :=
  mkCreateResponse true
    "Auction item created and will be listed on the auction page at 2030-01-02T00:00:00.000Z"
    (auctionA,
     mkAuction "Vase" "Blue vase" "Decor" "New" "20"
               "2030-01-02T00:00:00.000Z" "2030-01-03T00:00:00.000Z"
               (mkImage "auctions/vase"
                        "https://res.cloudinary.com/demo/auctions/vase.png")
               seller (num 0) None [] false).

Definition auctionC : string := "65a000000000000000000003".

(** A well-formed create request for 3 to 4 January 2030. *)
Definition createJan3 : create_request :=
  createRequest "2030-01-03T00:00:00.000Z" "2030-01-04T00:00:00.000Z".

(** 3 January 2030, 00:00 UTC. *)
Definition jan3 : Z := 1893628800000.

(** A create request whose [startTime] is no date at all. *)
Definition createNoDate : create_request :=
  createRequest "tomorrow" "2030-01-03T00:00:00.000Z".

(** Two bids of the same amount around a higher one; [bid3] names no Bid
    document. *)
Definition tiedBids : gmap string Bid :=
  <[bid1 := mkBid auctionA otherBidder 150]>
  (<[bid2 := mkBid auctionA winner 200]>
  (<[bid9 := mkBid auctionA seller 150]> ∅)).

Definition tiedAuction : Auction :=
  mkAuction "Lamp" "Brass desk lamp" "Furniture" "Used" "100"
            "2029-12-01T00:00:00.000Z" "2030-01-01T00:00:00.000Z"
            sampleImage seller (num 200) (Some winner) [bid1; bid3; bid2; bid9] false.

Definition tiedStore : store :=
  mkStore (<[auctionA := tiedAuction]> ∅) tiedBids ∅.

Definition tiedBidders : list (string * Bid) :=
  [(bid2, mkBid auctionA winner 200);
   (bid1, mkBid auctionA otherBidder 150);
   (bid9, mkBid auctionA seller 150)].

(** Two auctions of two sellers. *)
Definition twoSellerStore : store :=
  mkStore (<[auctionA := endedAuction (Some winner) true]>
           (<[auctionB := mkAuction "Chair" "Oak chair" "Furniture" "New" "50"
                            "2030-01-03T00:00:00.000Z" "2030-01-04T00:00:00.000Z"
                            sampleImage otherBidder (num 0) None [] false]> ∅))
          sampleBids
          (<[seller := mkUser (num 0) (num 0) (num 35)]> ∅).

(** What is left of [settledStore] once the sample auction is removed. *)
Definition removedStore : store :=
  (removeFromAuction isHexObjectId auctionA settledStore).2.

(** The republish of the sample auction asked by somebody else. *)
Definition republishByOther : republish_request :=
  mkRepublishRequest auctionA "2030-01-03T00:00:00.000Z" "2030-01-04T00:00:00.000Z"
                     otherBidder.

(** ** Samples at the edge of the doubles *)

(** The doubles nearest to 0.1 and to 0.2. *)
Definition tenth : number := S754_finite false 7205759403792794 (-56).
Definition fifth : number := S754_finite false 7205759403792794 (-55).

(** An ended auction won with the given bid. *)
Definition wonAuction (bid : number) (settled : bool) : Auction :=
  mkAuction "Lamp" "Brass desk lamp" "Furniture" "Used" "100"
            "2029-12-01T00:00:00.000Z" "2030-01-01T00:00:00.000Z"
            sampleImage seller bid (Some winner) [] settled.

(** A settled auction won with a bid of 1 by a user who has spent 2^54. *)
Definition hugeStore : store :=
  mkStore (<[auctionA := wonAuction (num 1) true]> ∅) ∅
          (<[seller := mkUser (num 0) (num 0) (num 0)]>
           (<[winner := mkUser (num 18014398509481984) (num 1) (num 0)]> ∅)).

(** An auction not yet settled, won with a bid of 2^53 by a user who has
    spent 1. *)
Definition residueStore : store :=
  mkStore (<[auctionA := wonAuction (num 9007199254740992) false]> ∅) ∅
          (<[seller := mkUser (num 0) (num 0) (num 0)]>
           (<[winner := mkUser (num 1) (num 0) (num 0)]> ∅)).

(** An auction not yet settled, won with a bid of 0.2 by a user who has
    spent 0.1. *)
Definition fractionStore : store :=
  mkStore (<[auctionA := wonAuction fifth false]> ∅) ∅
          (<[seller := mkUser (num 0) (num 0) (num 0)]>
           (<[winner := mkUser tenth (num 0) (num 0)]> ∅)).

(** * Properties *)

(** ** Whole numbers in double arithmetic *)

Lemma digits2_pos_bounds (m : positive) :
  2 ^ (Z.pos (digits2_pos m) - 1) ≤ Z.pos m < 2 ^ Z.pos (digits2_pos m).
Proof.
  induction m as [m IH|m IH|]; simpl digits2_pos.
  - rewrite Pos2Z.inj_succ.
    replace (Z.succ (Z.pos (digits2_pos m)) - 1) with (Z.succ (Z.pos (digits2_pos m) - 1)) by lia.
    rewrite !Z.pow_succ_r by lia. lia.
  - rewrite Pos2Z.inj_succ.
    replace (Z.succ (Z.pos (digits2_pos m)) - 1) with (Z.succ (Z.pos (digits2_pos m) - 1)) by lia.
    rewrite !Z.pow_succ_r by lia. lia.
  - simpl. lia.
Qed.

Lemma digits2_pos_unique (m : positive) (d : Z) :
  2 ^ (d - 1) ≤ Z.pos m < 2 ^ d → Z.pos (digits2_pos m) = d.
Proof.
  intros [Hlo Hhi]. pose proof (digits2_pos_bounds m) as [Hlo' Hhi'].
  assert (0 < d).
  { destruct (Z.le_gt_cases d 0) as [Hd|]; [|done].
    assert (2 ^ d ≤ 2 ^ 0) by (apply Z.pow_le_mono_r; lia). simpl in *. lia. }
  destruct (Z.lt_trichotomy (Z.pos (digits2_pos m)) d) as [Hlt|[Heq|Hgt]]; [|done|].
  - assert (2 ^ Z.pos (digits2_pos m) ≤ 2 ^ (d - 1)) by (apply Z.pow_le_mono_r; lia).
    lia.
  - assert (2 ^ d ≤ 2 ^ (Z.pos (digits2_pos m) - 1)) by (apply Z.pow_le_mono_r; lia).
    lia.
Qed.

Lemma digits2_pos_shift (m q : positive) (k : Z) :
  0 ≤ k → Z.pos q = Z.pos m * 2 ^ k →
  Z.pos (digits2_pos q) = Z.pos (digits2_pos m) + k.
Proof.
  intros Hk Hq. apply digits2_pos_unique. rewrite Hq.
  pose proof (digits2_pos_bounds m) as [Hlo Hhi].
  replace (Z.pos (digits2_pos m) + k - 1) with ((Z.pos (digits2_pos m) - 1) + k) by lia.
  rewrite !Z.pow_add_r by lia.
  assert (0 < 2 ^ k) by (apply Z.pow_pos_nonneg; lia).
  split; nia.
Qed.

Lemma iter_xO_value (m d : positive) :
  Z.pos (Pos.iter xO m d) = Z.pos m * 2 ^ Z.pos d.
Proof.
  induction d as [|d IH] using Pos.peano_ind.
  - simpl. lia.
  - rewrite Pos.iter_succ, Pos2Z.inj_succ, Z.pow_succ_r by lia.
    rewrite Pos2Z.inj_xO, IH. lia.
Qed.

Lemma shr_1_even (m : Z) :
  shr_1 (Build_shr_record (m * 2) false false) = Build_shr_record m false false.
Proof.
  destruct m as [|p|p]; simpl; [done| |].
  - by rewrite Pos.mul_comm.
  - by rewrite Pos.mul_comm.
Qed.

Lemma iter_shr_1_exact (d : positive) (m : Z) :
  iter_pos shr_1 d (Build_shr_record (m * 2 ^ Z.pos d) false false) =
  Build_shr_record m false false.
Proof.
  revert m. induction d as [d IH|d IH|]; intros m.
  - replace (m * 2 ^ Z.pos d~1) with ((m * 2 ^ Z.pos d * 2 ^ Z.pos d) * 2).
    + change (iter_pos shr_1 d~1 ?x) with (iter_pos shr_1 d (iter_pos shr_1 d (shr_1 x))).
      by rewrite shr_1_even, !IH.
    + assert (Z.pos d~1 = Z.pos d + Z.pos d + 1) as -> by lia.
      rewrite !Z.pow_add_r, Z.pow_1_r by lia. lia.
  - replace (m * 2 ^ Z.pos d~0) with (m * 2 ^ Z.pos d * 2 ^ Z.pos d).
    + change (iter_pos shr_1 d~0 ?x) with (iter_pos shr_1 d (iter_pos shr_1 d x)).
      by rewrite !IH.
    + assert (Z.pos d~0 = Z.pos d + Z.pos d) as -> by lia.
      rewrite !Z.pow_add_r by lia. lia.
  - rewrite Z.pow_1_r. apply shr_1_even.
Qed.

(** Rounding a mantissa whose value fits 53 digits exactly. *)
Lemma binary_round_exact (s : bool) (m q : positive) (e t : Z) :
  t = Z.pos (digits2_pos m) + e - 53 →
  -1074 ≤ t ≤ 971 →
  (t ≤ e → Z.pos q = Z.pos m * 2 ^ (e - t)) →
  (e < t → Z.pos m = Z.pos q * 2 ^ (t - e)) →
  binary_round 53 1024 s m e = S754_finite s q t.
Proof.
  intros Ht Hrange Hle Hgt.
  assert (Hdq : Z.pos (digits2_pos q) = 53).
  { destruct (Z.le_gt_cases t e) as [H|H].
    - rewrite (digits2_pos_shift m q (e - t)); [lia|lia|exact (Hle H)].
    - pose proof (digits2_pos_shift q m (t - e) ltac:(lia) (Hgt H)). lia. }
  assert (Hfexp : fexp 53 1024 (Z.pos (digits2_pos m) + e) = t).
  { unfold fexp, emin. lia. }
  assert (Haux : binary_round_aux 53 1024 s (Z.pos q) t loc_Exact = S754_finite s q t).
  { unfold binary_round_aux, shr_fexp. simpl Zdigits2. rewrite Hdq.
    replace (fexp 53 1024 (53 + t) - t) with 0 by (unfold fexp, emin; lia).
    simpl. rewrite Hdq.
    replace (fexp 53 1024 (53 + t) - t) with 0 by (unfold fexp, emin; lia).
    simpl. destruct (Z.leb_spec t (1024 - 53)); [done|lia]. }
  unfold binary_round. rewrite Hfexp. unfold shl_align.
  destruct (t - e) as [|d|d] eqn:Hd.
  - assert (t = e) by lia. subst e.
    assert (q = m). { specialize (Hle ltac:(lia)). rewrite Z.sub_diag in Hle. simpl in Hle. lia. }
    subst q. exact Haux.
  - assert (Hm : Z.pos m = Z.pos q * 2 ^ Z.pos d) by (apply Hgt; lia).
    unfold binary_round_aux, shr_fexp. simpl Zdigits2. rewrite Hfexp, Hd.
    unfold shr. simpl shr_record_of_loc. rewrite Hm, iter_shr_1_exact.
    simpl shr_m. simpl loc_of_shr_record. simpl round_nearest_even.
    replace (e + Z.pos d) with t by lia.
    simpl Zdigits2. rewrite Hdq.
    replace (fexp 53 1024 (53 + t) - t) with 0 by (unfold fexp, emin; lia).
    simpl. destruct (Z.leb_spec t (1024 - 53)); [done|lia].
  - assert (Hq : Z.pos q = Z.pos m * 2 ^ Z.pos d).
    { replace (Z.pos d) with (e - t) by lia. apply Hle. lia. }
    assert (Pos.iter xO m d = q) as -> by (pose proof (iter_xO_value m d); lia).
    exact Haux.
Qed.

Lemma whole_digits (p : positive) :
  Z.pos p < 2 ^ 53 → 1 ≤ Z.pos (digits2_pos p) ≤ 53.
Proof.
  intros Hp. pose proof (digits2_pos_bounds p) as [Hlo _]. split; [lia|].
  destruct (Z.le_gt_cases (Z.pos (digits2_pos p)) 53) as [|Hgt]; [done|].
  assert (2 ^ 53 ≤ 2 ^ (Z.pos (digits2_pos p) - 1)) by (apply Z.pow_le_mono_r; lia).
  lia.
Qed.

Lemma whole_mantissa_value (p : positive) :
  Z.pos p < 2 ^ 53 →
  Z.pos (whole_mantissa p) = Z.pos p * 2 ^ (- whole_exponent p).
Proof.
  intros Hp. pose proof (whole_digits p Hp). unfold whole_mantissa, whole_exponent.
  replace (- (Z.pos (digits2_pos p) - 53)) with (53 - Z.pos (digits2_pos p)) by lia.
  apply Z2Pos.id.
  assert (0 < 2 ^ (53 - Z.pos (digits2_pos p))) by (apply Z.pow_pos_nonneg; lia).
  lia.
Qed.

Lemma binary_round_whole (s : bool) (p m : positive) (k : Z) :
  0 ≤ k → Z.pos p < 2 ^ 53 → Z.pos m = Z.pos p * 2 ^ k →
  binary_round 53 1024 s m (- k) =
  S754_finite s (whole_mantissa p) (whole_exponent p).
Proof.
  intros Hk Hp Hm. pose proof (whole_digits p Hp) as Hd.
  pose proof (whole_mantissa_value p Hp) as Hq.
  pose proof (digits2_pos_shift p m k Hk Hm) as Hdm.
  unfold whole_exponent in *.
  apply binary_round_exact.
  - lia.
  - lia.
  - intros Hle. rewrite Hq, Hm, <- Z.mul_assoc, <- Z.pow_add_r by lia.
    f_equal. f_equal. lia.
  - intros Hlt. rewrite Hq, Hm, <- Z.mul_assoc, <- Z.pow_add_r by lia.
    f_equal. f_equal. lia.
Qed.

Lemma normalize_whole (v k : Z) :
  0 ≤ k → Z.abs v < 2 ^ 53 →
  binary_normalize 53 1024 (v * 2 ^ k) (- k) false = num v.
Proof.
  intros Hk Hv. assert (H2k : 0 < 2 ^ k) by (apply Z.pow_pos_nonneg; lia).
  destruct v as [|p|p].
  - reflexivity.
  - destruct (Z.pos p * 2 ^ k) as [|m|m] eqn:Hm; [lia| |lia].
    unfold binary_normalize.
    transitivity (S754_finite false (whole_mantissa p) (whole_exponent p)).
    + apply binary_round_whole; [done|lia|done].
    + symmetry. apply (binary_round_whole false p p 0); lia.
  - destruct (Z.neg p * 2 ^ k) as [|m|m] eqn:Hm; [lia|lia|].
    unfold binary_normalize.
    transitivity (S754_finite true (whole_mantissa p) (whole_exponent p)).
    + apply binary_round_whole; [done|lia|lia].
    + symmetry. apply (binary_round_whole true p p 0); lia.
Qed.

Lemma num_pos (p : positive) :
  Z.pos p < 2 ^ 53 →
  num (Z.pos p) = S754_finite false (whole_mantissa p) (whole_exponent p).
Proof.
  intros Hp. unfold binary_normalize.
  apply (binary_round_whole false p p 0); lia.
Qed.

Lemma num_neg (p : positive) :
  Z.pos p < 2 ^ 53 →
  num (Z.neg p) = S754_finite true (whole_mantissa p) (whole_exponent p).
Proof.
  intros Hp. unfold binary_normalize.
  apply (binary_round_whole true p p 0); lia.
Qed.

Lemma shl_align_value (q : positive) (t ez : Z) :
  ez ≤ t → Z.pos (fst (shl_align q t ez)) = Z.pos q * 2 ^ (t - ez).
Proof.
  intros Hle. unfold shl_align.
  destruct (ez - t) as [|d|d] eqn:Hd; simpl fst.
  - replace (t - ez) with 0 by lia. simpl. lia.
  - lia.
  - rewrite iter_xO_value. f_equal. f_equal. lia.
Qed.

(** The aligned, signed mantissa of a whole number. *)
Lemma aligned_whole (s : bool) (p : positive) (ez : Z) :
  Z.pos p < 2 ^ 53 → ez ≤ whole_exponent p → ez ≤ 0 →
  cond_Zopp s (Z.pos (fst (shl_align (whole_mantissa p) (whole_exponent p) ez))) =
  cond_Zopp s (Z.pos p) * 2 ^ (- ez).
Proof.
  intros Hp Hle Hz. pose proof (whole_digits p Hp).
  rewrite shl_align_value, whole_mantissa_value by done.
  assert (Hpow : 2 ^ (- whole_exponent p) * 2 ^ (whole_exponent p - ez) = 2 ^ (- ez)).
  { unfold whole_exponent in *. rewrite <- Z.pow_add_r by lia. f_equal. lia. }
  destruct s; unfold cond_Zopp; rewrite <- Hpow; lia.
Qed.

Lemma whole_exponent_nonpos (p : positive) :
  Z.pos p < 2 ^ 53 → whole_exponent p ≤ 0.
Proof. intros Hp. pose proof (whole_digits p Hp). unfold whole_exponent. lia. Qed.

Local Ltac whole_finite p q op_distr :=
  pose proof (whole_exponent_nonpos p ltac:(lia));
  pose proof (whole_exponent_nonpos q ltac:(lia));
  rewrite ?num_pos, ?num_neg by lia;
  unfold SFsub, SFadd;
  rewrite !aligned_whole by lia;
  rewrite <- op_distr;
  set (ez := Z.min (whole_exponent p) (whole_exponent q));
  replace ez with (- - ez) at 2 by lia;
  unfold cond_Zopp; apply normalize_whole; lia.

(** Subtraction of whole numbers is exact as long as the operands and the
    difference stay below 2^53. *)
Lemma SFsub_whole (a b : Z) :
  Z.abs a < 2 ^ 53 → Z.abs b < 2 ^ 53 → Z.abs (a - b) < 2 ^ 53 →
  SFsub 53 1024 (num a) (num b) = num (a - b).
Proof.
  intros Ha Hb Hab.
  destruct a as [|p|p], b as [|q|q].
  - reflexivity.
  - change (0 - Z.pos q) with (Z.neg q). rewrite num_pos, num_neg by lia. reflexivity.
  - change (0 - Z.neg q) with (Z.pos q). rewrite num_pos, num_neg by lia. reflexivity.
  - rewrite Z.sub_0_r. rewrite num_pos by lia. reflexivity.
  - whole_finite p q Z.mul_sub_distr_r.
  - whole_finite p q Z.mul_sub_distr_r.
  - rewrite Z.sub_0_r. rewrite num_neg by lia. reflexivity.
  - whole_finite p q Z.mul_sub_distr_r.
  - whole_finite p q Z.mul_sub_distr_r.
Qed.

(** So is addition. *)
Lemma SFadd_whole (a b : Z) :
  Z.abs a < 2 ^ 53 → Z.abs b < 2 ^ 53 → Z.abs (a + b) < 2 ^ 53 →
  SFadd 53 1024 (num a) (num b) = num (a + b).
Proof.
  intros Ha Hb Hab.
  destruct a as [|p|p], b as [|q|q].
  - reflexivity.
  - rewrite Z.add_0_l. rewrite num_pos by lia. reflexivity.
  - rewrite Z.add_0_l. rewrite num_neg by lia. reflexivity.
  - rewrite Z.add_0_r. rewrite num_pos by lia. reflexivity.
  - whole_finite p q Z.mul_add_distr_r.
  - whole_finite p q Z.mul_add_distr_r.
  - rewrite Z.add_0_r. rewrite num_neg by lia. reflexivity.
  - whole_finite p q Z.mul_add_distr_r.
  - whole_finite p q Z.mul_add_distr_r.
Qed.

(** Distinct whole numbers below 2^53 are distinct doubles. *)
Lemma num_whole_inj (a b : Z) :
  Z.abs a < 2 ^ 53 → Z.abs b < 2 ^ 53 → num a = num b → a = b.
Proof.
  intros Ha Hb.
  assert (Hpq : ∀ p q : positive, Z.pos p < 2 ^ 53 → Z.pos q < 2 ^ 53 →
            whole_mantissa p = whole_mantissa q →
            whole_exponent p = whole_exponent q → p = q).
  { intros p q Hp Hq Hm He.
    pose proof (whole_mantissa_value p Hp) as Vp.
    pose proof (whole_mantissa_value q Hq) as Vq.
    pose proof (whole_exponent_nonpos p Hp).
    rewrite Hm, He in Vp. rewrite Vp in Vq.
    assert (0 < 2 ^ (- whole_exponent q)) by (apply Z.pow_pos_nonneg; lia).
    apply Z.mul_cancel_r in Vq; lia. }
  destruct a as [|p|p], b as [|q|q];
    rewrite ?num_pos, ?num_neg by lia; intros H; try discriminate; try done.
  - inversion H. f_equal. apply Hpq; [lia|lia|done|done].
  - inversion H. f_equal. apply Hpq; [lia|lia|done|done].
Qed.


(** ** The error middleware *)

Lemma errorMiddleware_ErrorHandler_status (message : string) (c : Z) :
  c ≠ 0 → er_status (errorMiddleware (ErrorHandler message (Some c))) = Some c.
Proof.
  intros Hc. unfold errorMiddleware, ErrorHandler, set_status_message; simpl.
  unfold statusCode_or. rewrite bool_decide_eq_false_2 by done. reflexivity.
Qed.

(** An error that carries no status code leaves the middleware with 500,
    whatever its name and message. *)
Lemma errorMiddleware_no_status (message : string) :
  er_status (errorMiddleware (ErrorHandler message None)) = Some 500.
Proof. reflexivity. Qed.

Lemma errorMiddleware_TypeError (message : string) :
  er_status (errorMiddleware (TypeError message)) = Some 500.
Proof. reflexivity. Qed.

(** ** Republish *)

Section republish.
Variable newDate : string → time_value.
Variable isValid : string → bool.

Lemma reverse_settlement_auctions (rejection : option js_error) (a : Auction)
    (st st1 : store) :
  reverse_settlement rejection a st = inr st1 →
  auctions st1 = auctions st ∧ bidRecords st1 = bidRecords st.
Proof.
  unfold reverse_settlement.
  destruct (highestBidder a) as [w|];
    [destruct (users st !! w) as [u|]; [destruct rejection|]|];
    intros H; inversion H; subst; done.
Qed.

(** Every 200 response of republishItem went through all six guards and
    through the reversal, and leaves the store as [republished] says. *)
Lemma republishItem_Json_inv (env : republish_env) (req : republish_request)
    (st st' : store) (status : Z) (body : republish_response) :
  republishItem newDate isValid env req st = (Json status body, st') →
  ∃ a st1,
    isValid (rp_id req) = true ∧
    auctions st !! rp_id req = Some a ∧
    time_gt (newDate (endTime a)) (TimeMs (now_active env)) = false ∧
    truthy (rp_startTime req) = true ∧ truthy (rp_endTime req) = true ∧
    time_lt (newDate (rp_startTime req)) (TimeMs (now_window env)) = false ∧
    time_ge (newDate (rp_startTime req)) (newDate (rp_endTime req)) = false ∧
    reverse_settlement (save_winner env) a st = inr st1 ∧
    status = 200 ∧
    st' = republished req a st1.
Proof.
  unfold republishItem. intros H.
  destruct (isValid (rp_id req)) eqn:Hv; simpl in H; [|discriminate].
  destruct (auctions st !! rp_id req) as [a|] eqn:Ha; [|discriminate].
  destruct (time_gt _ _) eqn:Hgt; [discriminate|].
  destruct (truthy (rp_startTime req)) eqn:Hs; simpl in H; [|discriminate].
  destruct (truthy (rp_endTime req)) eqn:He; simpl in H; [|discriminate].
  destruct (time_lt _ _) eqn:Hlt; [discriminate|].
  destruct (time_ge _ _) eqn:Hge; [discriminate|].
  destruct (reverse_settlement (save_winner env) a st) as [exn|st1] eqn:Hr;
    [discriminate|].
  destruct (reverse_settlement_auctions _ _ _ _ Hr) as [Hau _].
  unfold Auction_findByIdAndUpdate in H.
  destruct (update_auction env); [discriminate|].
  rewrite Hau, Ha in H.
  destruct (delete_bids env), (clear_commission env); simpl in H;
    try discriminate.
  inversion H; subst. exists a, st1.
  unfold republished. rewrite Hau. done.
Qed.

(** The body of a 200 response carries the updated document, and no write
    was rejected. *)
Lemma republishItem_Json_body (env : republish_env) (req : republish_request)
    (st st' : store) (a : Auction) (status : Z) (body : republish_response) :
  auctions st !! rp_id req = Some a →
  republishItem newDate isValid env req st = (Json status body, st') →
  body = mkRepublishResponse true
           (rp_id req, republish_update (rp_startTime req) (rp_endTime req) a)
           ("Auction republished and will be active on " ++ rp_startTime req) ∧
  update_auction env = None ∧ delete_bids env = None ∧
  clear_commission env = None.
Proof.
  intros Ha. unfold republishItem. rewrite Ha. intros H.
  destruct (isValid (rp_id req)); simpl in H; [|discriminate].
  destruct (time_gt _ _); [discriminate|].
  destruct (negb (truthy (rp_startTime req)) || negb (truthy (rp_endTime req)));
    [discriminate|].
  destruct (time_lt _ _); [discriminate|].
  destruct (time_ge _ _); [discriminate|].
  destruct (reverse_settlement (save_winner env) a st) as [exn|st1] eqn:Hr;
    [discriminate|].
  destruct (reverse_settlement_auctions _ _ _ _ Hr) as [Hau _].
  unfold Auction_findByIdAndUpdate in H.
  destruct (update_auction env); [discriminate|].
  rewrite Hau, Ha in H.
  destruct (delete_bids env), (clear_commission env); simpl in H;
    try discriminate.
  inversion H; subst. done.
Qed.

(** Conversely, a request that passes the guards on an auction whose winner
    (if any) is a user, and whose writes are not rejected, gets its 200
    response. *)
Lemma republishItem_success (env : republish_env) (req : republish_request)
    (st st1 : store) (a : Auction) :
  isValid (rp_id req) = true →
  auctions st !! rp_id req = Some a →
  time_gt (newDate (endTime a)) (TimeMs (now_active env)) = false →
  truthy (rp_startTime req) = true → truthy (rp_endTime req) = true →
  time_lt (newDate (rp_startTime req)) (TimeMs (now_window env)) = false →
  time_ge (newDate (rp_startTime req)) (newDate (rp_endTime req)) = false →
  reverse_settlement (save_winner env) a st = inr st1 →
  update_auction env = None → delete_bids env = None →
  clear_commission env = None →
  republishItem newDate isValid env req st =
    (Json 200
       (mkRepublishResponse true
          (rp_id req, republish_update (rp_startTime req) (rp_endTime req) a)
          ("Auction republished and will be active on " ++ rp_startTime req)),
     republished req a st1).
Proof.
  intros Hv Ha Hgt Hs He Hlt Hge Hr Hup Hdel Hclr. unfold republishItem.
  rewrite Hv, Ha, Hgt, Hs, He, Hlt, Hge, Hr; simpl.
  destruct (reverse_settlement_auctions _ _ _ _ Hr) as [Hau _].
  unfold Auction_findByIdAndUpdate. rewrite Hup, Hau, Ha, Hdel, Hclr.
  unfold republished. rewrite Hau. done.
Qed.

(** The users of the store after the reversal. *)
Lemma reverse_settlement_users (rejection : option js_error) (a : Auction)
    (st st1 : store) :
  reverse_settlement rejection a st = inr st1 →
  match highestBidder a with
  | None => users st1 = users st
  | Some w =>
      ∃ u, users st !! w = Some u ∧
           users st1 = <[w := mkUser (number_sub (moneySpent u) (currentBid a))
                                     (number_sub (auctionsWon u) (num 1))
                                     (unpaidCommission u)]> (users st)
  end.
Proof.
  unfold reverse_settlement.
  destruct (highestBidder a) as [w|];
    [destruct (users st !! w) as [u|] eqn:Hu; [destruct rejection|]|];
    intros H; inversion H; subst; eauto.
Qed.

Lemma republished_users (req : republish_request) (a : Auction) (st1 : store) :
  users (republished req a st1) =
  alter (λ u, mkUser (moneySpent u) (auctionsWon u) (num 0)) (rp_user req) (users st1).
Proof. reflexivity. Qed.

(** Clearing the unpaid commission keeps [moneySpent] and [auctionsWon]. *)
Lemma cleared_moneySpent (uid k : string) (m : gmap string User) :
  moneySpent <$> alter (λ u, mkUser (moneySpent u) (auctionsWon u) (num 0)) uid m !! k
  = moneySpent <$> m !! k.
Proof.
  rewrite lookup_alter. case_decide; [|done]. subst.
  by destruct (m !! k).
Qed.

Lemma cleared_auctionsWon (uid k : string) (m : gmap string User) :
  auctionsWon <$> alter (λ u, mkUser (moneySpent u) (auctionsWon u) (num 0)) uid m !! k
  = auctionsWon <$> m !! k.
Proof.
  rewrite lookup_alter. case_decide; [|done]. subst.
  by destruct (m !! k).
Qed.

Lemma cleared_keeps_figures (uid k : string) (m : gmap string User) (u : User) :
  m !! k = Some u →
  ∃ u', alter (λ u, mkUser (moneySpent u) (auctionsWon u) (num 0)) uid m !! k = Some u' ∧
        moneySpent u' = moneySpent u ∧ auctionsWon u' = auctionsWon u.
Proof.
  intros Hk. rewrite lookup_alter.
  case_decide; subst; rewrite Hk; simpl; (eexists; split; [reflexivity | done]).
Qed.

(** A request without [startTime] or [endTime], on an existing auction that
    has ended, is answered through an error that carries no status code. *)
Lemma republishItem_missing_times (env : republish_env) (req : republish_request)
    (st : store) (a : Auction) :
  isValid (rp_id req) = true →
  auctions st !! rp_id req = Some a →
  time_gt (newDate (endTime a)) (TimeMs (now_active env)) = false →
  truthy (rp_startTime req) = false ∨ truthy (rp_endTime req) = false →
  republishItem newDate isValid env req st =
    (Next (ErrorHandler "Start time and end time for republish are mandatory." None),
     st).
Proof.
  intros Hv Ha Hgt Hmiss. unfold republishItem. rewrite Hv, Ha, Hgt; simpl.
  destruct Hmiss as [-> | ->]; simpl; [done|].
  by rewrite orb_true_r.
Qed.

(** When the winner names no user, the reversal throws and nothing is
    written. *)
Lemma republishItem_missing_winner (env : republish_env) (req : republish_request)
    (st : store) (a : Auction) (w : string) :
  isValid (rp_id req) = true →
  auctions st !! rp_id req = Some a →
  time_gt (newDate (endTime a)) (TimeMs (now_active env)) = false →
  truthy (rp_startTime req) = true → truthy (rp_endTime req) = true →
  time_lt (newDate (rp_startTime req)) (TimeMs (now_window env)) = false →
  time_ge (newDate (rp_startTime req)) (newDate (rp_endTime req)) = false →
  highestBidder a = Some w →
  users st !! w = None →
  republishItem newDate isValid env req st =
    (Throws (TypeError "Cannot read properties of null (reading 'moneySpent')"), st).
Proof.
  intros Hv Ha Hgt Hs He Hlt Hge Hw Hu. unfold republishItem.
  rewrite Hv, Ha, Hgt, Hs, He, Hlt, Hge; simpl.
  unfold reverse_settlement. by rewrite Hw, Hu.
Qed.

(** C3: a republish request on an existing auction whose [endTime] is after
    the present time is refused with the error "Auction is already active,
    cannot republish." and leaves every record as it was; a republish that is
    answered with success had [endTime] at or before the present time. *)
Theorem republish_refused_until_ended (env : republish_env) (req : republish_request)
    (st : store) (a : Auction) (e : Z) :
  isValid (rp_id req) = true →
  auctions st !! rp_id req = Some a →
  newDate (endTime a) = TimeMs e →
  (e > now_active env →
   republishItem newDate isValid env req st =
     (Next (ErrorHandler "Auction is already active, cannot republish." (Some 400)),
      st)) ∧
  (∀ status body st',
     republishItem newDate isValid env req st = (Json status body, st') →
     e ≤ now_active env).
Proof.
  intros Hv Ha He. split.
  - intros Hfut. unfold republishItem. rewrite Hv, Ha, He; simpl.
    by rewrite bool_decide_eq_true_2.
  - intros status body st' H.
    apply republishItem_Json_inv in H as (a' & st1 & _ & Ha' & Hgt & _).
    rewrite Ha in Ha'. inversion Ha'; subst a'.
    rewrite He in Hgt. simpl in Hgt.
    apply bool_decide_eq_false in Hgt. lia.
Qed.

(** C4 (as the code has it): after a successful republish of an auction
    with a [highestBidder], that user's [moneySpent] is the double
    [moneySpent - currentBid] and [auctionsWon] is the double
    [auctionsWon - 1]; these are the exact differences when the figures are
    whole numbers and they and the differences are below 2^53 in magnitude.
    Every other user keeps both figures; with no [highestBidder], every user
    does. *)
Theorem republish_reverses_settlement (env : republish_env) (req : republish_request)
    (st st' : store) (a : Auction) (status : Z) (body : republish_response) :
  auctions st !! rp_id req = Some a →
  republishItem newDate isValid env req st = (Json status body, st') →
  match highestBidder a with
  | Some w =>
      (∃ u u', users st !! w = Some u ∧ users st' !! w = Some u' ∧
               moneySpent u' = SFsub 53 1024 (moneySpent u) (currentBid a) ∧
               auctionsWon u' = SFsub 53 1024 (auctionsWon u) (num 1) ∧
               (∀ m b : Z,
                  moneySpent u = num m → currentBid a = num b →
                  Z.abs m < 2 ^ 53 → Z.abs b < 2 ^ 53 → Z.abs (m - b) < 2 ^ 53 →
                  moneySpent u' = num (m - b)) ∧
               (∀ n : Z,
                  auctionsWon u = num n →
                  Z.abs n < 2 ^ 53 → Z.abs (n - 1) < 2 ^ 53 →
                  auctionsWon u' = num (n - 1))) ∧
      (∀ k, k ≠ w →
            moneySpent <$> users st' !! k = moneySpent <$> users st !! k ∧
            auctionsWon <$> users st' !! k = auctionsWon <$> users st !! k)
  | None =>
      ∀ k, moneySpent <$> users st' !! k = moneySpent <$> users st !! k ∧
           auctionsWon <$> users st' !! k = auctionsWon <$> users st !! k
  end.
Proof.
  intros Ha H.
  apply republishItem_Json_inv in H
    as (a' & st1 & _ & Ha' & _ & _ & _ & _ & _ & Hr & _ & ->).
  rewrite Ha in Ha'. inversion Ha'; subst a'.
  apply reverse_settlement_users in Hr.
  destruct (highestBidder a) as [w|].
  - destruct Hr as (u & Hu & Hst1). split.
    + destruct (cleared_keeps_figures (rp_user req) w (users st1)
                  (mkUser (number_sub (moneySpent u) (currentBid a))
                          (number_sub (auctionsWon u) (num 1))
                          (unpaidCommission u)))
        as (u' & Hu' & Hm & Hw).
      { rewrite Hst1. apply lookup_insert_eq. }
      simpl in Hm, Hw.
      exists u, u'. rewrite republished_users.
      split; [done|]. split; [done|]. split; [done|]. split; [done|]. split.
      * intros m b Hm0 Hb0 Bm Bb Bmb. rewrite Hm, Hm0, Hb0.
        by apply SFsub_whole.
      * intros n Hn0 Bn Bn1. rewrite Hw, Hn0.
        by apply (SFsub_whole n 1).
    + intros k Hk. rewrite republished_users, cleared_moneySpent, cleared_auctionsWon.
      rewrite Hst1, lookup_insert_ne by done. done.
  - intros k. rewrite republished_users, cleared_moneySpent, cleared_auctionsWon.
    by rewrite Hr.
Qed.

(** C5: after a successful republish the auction carries the new
    [startTime] and [endTime], no bids, [commissionCalculated] false,
    [currentBid] 0 and no [highestBidder]; no Bid record refers to it any
    more, and the Bid records of other auctions are all still there. *)
Theorem republish_resets_auction (env : republish_env) (req : republish_request)
    (st st' : store) (status : Z) (body : republish_response) :
  republishItem newDate isValid env req st = (Json status body, st') →
  (∃ a', auctions st' !! rp_id req = Some a' ∧
         startTime a' = rp_startTime req ∧ endTime a' = rp_endTime req ∧
         bids a' = [] ∧ commissionCalculated a' = false ∧
         currentBid a' = num 0 ∧ highestBidder a' = None) ∧
  (∀ k b, bidRecords st' !! k = Some b → auctionItem b ≠ rp_id req) ∧
  (∀ k b, bidRecords st !! k = Some b → auctionItem b ≠ rp_id req →
          bidRecords st' !! k = Some b).
Proof.
  intros H.
  apply republishItem_Json_inv in H as (a & st1 & _ & Ha & _ & _ & _ & _ & _ & Hr & _ & ->).
  apply reverse_settlement_auctions in Hr as [Hau Hbi].
  unfold republished, clear_unpaidCommission, Bid_deleteMany; simpl.
  split; [|split].
  - eexists. rewrite lookup_insert_eq. split; [reflexivity|]. done.
  - intros k b Hk. apply map_lookup_filter_Some in Hk as [_ Hk]. exact Hk.
  - intros k b Hk Hne. apply map_lookup_filter_Some. rewrite Hbi. done.
Qed.

(** C6: after a successful republish the requesting user's
    [unpaidCommission] is 0, whatever it was and whoever the auction's
    [highestBidder] was. *)
Theorem republish_clears_requester_commission (env : republish_env)
    (req : republish_request) (st st' : store) (status : Z)
    (body : republish_response) :
  republishItem newDate isValid env req st = (Json status body, st') →
  is_Some (users st !! rp_user req) →
  unpaidCommission <$> users st' !! rp_user req = Some (num 0).
Proof.
  intros H [u Hu].
  apply republishItem_Json_inv in H as (a & st1 & _ & Ha & _ & _ & _ & _ & _ & Hr & _ & ->).
  apply reverse_settlement_users in Hr.
  rewrite republished_users, lookup_alter. rewrite decide_True by done.
  destruct (highestBidder a) as [w|].
  - destruct Hr as (uw & Huw & ->).
    destruct (decide (w = rp_user req)) as [->|Hne].
    + by rewrite lookup_insert_eq.
    + rewrite lookup_insert_ne by done. by rewrite Hu.
  - rewrite Hr, Hu. done.
Qed.

(** ** Close, then republish *)

Variable commission : number → number.

(** The close of a due auction whose winner is a user. *)
Lemma closeAuction_settles (now : Z) (id : string) (st : store) (a : Auction)
    (w : string) (u : User) :
  auctions st !! id = Some a →
  commissionCalculated a = false →
  time_ge (TimeMs now) (newDate (endTime a)) = true →
  highestBidder a = Some w →
  users st !! w = Some u →
  closeAuction newDate commission now id st =
    mkStore (<[id := marked_settled a]> (auctions st))
            (bidRecords st)
            (<[w := mkUser (number_add (moneySpent u) (currentBid a))
                           (number_add (auctionsWon u) (num 1))
                           (number_add (unpaidCommission u)
                                       (commission (currentBid a)))]>
               (users st)).
Proof.
  intros Ha Hc Hdue Hw Hu. unfold closeAuction.
  rewrite Ha, Hc, Hdue, Hw, Hu. reflexivity.
Qed.

(** C9 (as the code has it): for an auction that has ended, has not been
    settled and has a winner who is a user, whose [moneySpent] and
    [auctionsWon] and the auction's [currentBid] are whole numbers that stay
    below 2^53 in magnitude together with [moneySpent + currentBid] and
    [auctionsWon + 1]: the close settlement followed by a republish that
    passes its guards and whose writes are not rejected gives the winner
    back the [moneySpent] and [auctionsWon] held before the close. *)
Theorem close_then_republish_restores_winner (now_close : Z)
    (env : republish_env) (req : republish_request) (st : store) (a : Auction)
    (e : Z) (w : string) (u : User) (m b n : Z) :
  isValid (rp_id req) = true →
  auctions st !! rp_id req = Some a →
  commissionCalculated a = false →
  newDate (endTime a) = TimeMs e →
  e ≤ now_close → now_close ≤ now_active env →
  highestBidder a = Some w →
  users st !! w = Some u →
  truthy (rp_startTime req) = true → truthy (rp_endTime req) = true →
  time_lt (newDate (rp_startTime req)) (TimeMs (now_window env)) = false →
  time_ge (newDate (rp_startTime req)) (newDate (rp_endTime req)) = false →
  save_winner env = None → update_auction env = None →
  delete_bids env = None → clear_commission env = None →
  moneySpent u = num m → currentBid a = num b → auctionsWon u = num n →
  Z.abs m < 2 ^ 53 → Z.abs b < 2 ^ 53 → Z.abs (m + b) < 2 ^ 53 →
  Z.abs n < 2 ^ 53 → Z.abs (n + 1) < 2 ^ 53 →
  let closed := closeAuction newDate commission now_close (rp_id req) st in
  (∃ uc, users closed !! w = Some uc ∧
         moneySpent uc = num (m + b) ∧ auctionsWon uc = num (n + 1)) ∧
  ∃ body st' u',
    republishItem newDate isValid env req closed = (Json 200 body, st') ∧
    users st' !! w = Some u' ∧
    moneySpent u' = moneySpent u ∧
    auctionsWon u' = auctionsWon u.
Proof.
  intros Hv Ha Hc He Hle1 Hle2 Hw Hu Hs Hen Hlt Hge Hsave Hup Hdel Hclr
         Hm Hb Hn Bm Bb Bmb Bn Bn1 closed.
  assert (Hdue : time_ge (TimeMs now_close) (newDate (endTime a)) = true).
  { rewrite He. simpl. apply bool_decide_eq_true_2. lia. }
  assert (Hclosed := closeAuction_settles now_close _ _ _ _ _ Ha Hc Hdue Hw Hu).
  fold closed in Hclosed.
  set (uc := mkUser (number_add (moneySpent u) (currentBid a))
                    (number_add (auctionsWon u) (num 1))
                    (number_add (unpaidCommission u) (commission (currentBid a))))
    in *.
  assert (Hcu : users closed !! w = Some uc).
  { rewrite Hclosed. simpl. apply lookup_insert_eq. }
  assert (Hucm : moneySpent uc = num (m + b)).
  { unfold uc. simpl. rewrite Hm, Hb. by apply SFadd_whole. }
  assert (Hucn : auctionsWon uc = num (n + 1)).
  { unfold uc. simpl. rewrite Hn. by apply (SFadd_whole n 1). }
  split; [by exists uc|]. clearbody uc.
  set (ur := mkUser (number_sub (moneySpent uc) (currentBid (marked_settled a)))
                    (number_sub (auctionsWon uc) (num 1)) (unpaidCommission uc)).
  set (st1 := with_users closed (<[w := ur]> (users closed))).
  assert (Hr : reverse_settlement (save_winner env) (marked_settled a) closed
               = inr st1).
  { unfold reverse_settlement. simpl. rewrite Hw, Hcu, Hsave. reflexivity. }
  assert (Hca : auctions closed !! rp_id req = Some (marked_settled a)).
  { rewrite Hclosed. simpl. apply lookup_insert_eq. }
  assert (Hgt : time_gt (newDate (endTime (marked_settled a)))
                        (TimeMs (now_active env)) = false).
  { simpl. rewrite He. simpl. apply bool_decide_eq_false_2. lia. }
  pose proof (republishItem_success env req closed st1 (marked_settled a)
                Hv Hca Hgt Hs Hen Hlt Hge Hr Hup Hdel Hclr) as Hok.
  destruct (cleared_keeps_figures (rp_user req) w (users st1) ur)
    as (u' & Hu' & Hmu & Hwon).
  { unfold st1. simpl. apply lookup_insert_eq. }
  eexists _, _, u'. split; [exact Hok|].
  rewrite republished_users. split; [exact Hu'|].
  rewrite Hmu, Hwon. unfold ur. simpl. rewrite Hucm, Hucn, Hb, Hm, Hn.
  split.
  - replace m with (m + b - b) at 2 by lia. apply SFsub_whole; [done|done|].
    by replace (m + b - b) with m by lia.
  - replace n with (n + 1 - 1) at 2 by lia. apply (SFsub_whole (n + 1) 1); [done|done|].
    by replace (n + 1 - 1) with n by lia.
Qed.

End republish.

(** ** Republish on the sample stores *)

Lemma republish_refused_until_ended_witness :
  republishItem sampleDate isHexObjectId (republishEnv jan1) republishScheduled
    scheduledStore =
    (Next (ErrorHandler "Auction is already active, cannot republish." (Some 400)),
     scheduledStore).
Proof.
  refine (proj1 (republish_refused_until_ended sampleDate isHexObjectId (republishEnv jan1)
                   republishScheduled scheduledStore scheduledAuction
                   1893715200000 _ _ _) _).
  - vm_compute; reflexivity.
  - vm_compute; reflexivity.
  - vm_compute; reflexivity.
  - vm_compute; reflexivity.
Defined.

Lemma republish_reverses_settlement_witness :
  ∃ u', users republishedStore !! winner = Some u' ∧
        moneySpent u' = num 500 ∧ auctionsWon u' = num 2.
Proof.
  destruct (republish_reverses_settlement sampleDate isHexObjectId
              (republishEnv jan2) republishRequest settledStore republishedStore
              (endedAuction (Some winner) true) 200 republishedBody)
    as [(u & u' & Hu & Hu' & _ & _ & Hm & Hw) _].
  - vm_compute; reflexivity.
  - vm_compute; reflexivity.
  - assert (u = mkUser (num 700) (num 3) (num 10)) as ->.
    { assert (users settledStore !! winner = Some (mkUser (num 700) (num 3) (num 10)))
        as Hu0 by (vm_compute; reflexivity).
      rewrite Hu0 in Hu. by inversion Hu. }
    exists u'. split; [exact Hu'|]. split.
    + apply (Hm 700 200); vm_compute; reflexivity.
    + apply (Hw 3); vm_compute; reflexivity.
Defined.

(** With a [moneySpent] of 2^54 and a [currentBid] of 1 the republish goes
    through and the winner's [moneySpent] is still 2^54: the double nearest
    to the difference is the former value. *)
Lemma republish_reversal_rounds :
  users hugeStore !! winner =
    Some (mkUser (num 18014398509481984) (num 1) (num 0)) ∧
  currentBid <$> auctions hugeStore !! auctionA = Some (num 1) ∧
  highestBidder <$> auctions hugeStore !! auctionA = Some (Some winner) ∧
  response_status
    (republishItem sampleDate isHexObjectId (republishEnv jan2)
       republishRequest hugeStore).1 = Some 200 ∧
  users (republishItem sampleDate isHexObjectId (republishEnv jan2)
           republishRequest hugeStore).2 !! winner =
    Some (mkUser (num 18014398509481984) (num 0) (num 0)).
Proof. repeat split; vm_compute; reflexivity. Qed.

Lemma republish_resets_auction_witness :
  (∃ a', auctions republishedStore !! auctionA = Some a' ∧
         startTime a' = "2030-01-03T00:00:00.000Z" ∧
         endTime a' = "2030-01-04T00:00:00.000Z" ∧
         bids a' = [] ∧ commissionCalculated a' = false ∧
         currentBid a' = num 0 ∧ highestBidder a' = None) ∧
  (∀ k b, bidRecords republishedStore !! k = Some b → auctionItem b ≠ auctionA) ∧
  (∀ k b, bidRecords settledStore !! k = Some b → auctionItem b ≠ auctionA →
          bidRecords republishedStore !! k = Some b).
Proof.
  refine (republish_resets_auction sampleDate isHexObjectId (republishEnv jan2)
            republishRequest settledStore republishedStore 200 republishedBody _).
  vm_compute; reflexivity.
Defined.

Lemma republish_clears_requester_commission_witness :
  unpaidCommission <$> users settledStore !! seller = Some (num 35) ∧
  unpaidCommission <$> users republishedStore !! seller = Some (num 0).
Proof.
  split; [vm_compute; reflexivity|].
  refine (republish_clears_requester_commission sampleDate isHexObjectId (republishEnv jan2)
            republishRequest settledStore republishedStore 200 republishedBody _ _).
  - vm_compute; reflexivity.
  - exists (mkUser (num 0) (num 0) (num 35)). vm_compute; reflexivity.
Defined.

Lemma close_then_republish_restores_winner_witness :
  let closed := closeAuction sampleDate flatRate jan2 auctionA unsettledStore in
  (∃ uc, users closed !! winner = Some uc ∧
         moneySpent uc = num 700 ∧ auctionsWon uc = num 3) ∧
  ∃ body st' u',
    republishItem sampleDate isHexObjectId (republishEnv jan2) republishRequest closed =
      (Json 200 body, st') ∧
    users st' !! winner = Some u' ∧
    moneySpent u' = num 500 ∧ auctionsWon u' = num 2.
Proof.
  refine (close_then_republish_restores_winner sampleDate isHexObjectId flatRate
            jan2 (republishEnv jan2) republishRequest unsettledStore
            (endedAuction (Some winner) false) jan1 winner
            (mkUser (num 500) (num 2) (num 0)) 500 200 2
            _ _ _ _ _ _ _ _ _ _ _ _ _ _ _ _ _ _ _ _ _ _ _ _).
  all: vm_compute; first [reflexivity | discriminate].
Defined.

(** With a [moneySpent] of 1 and a [currentBid] of 2^53, the close leaves
    2^53 (the double nearest to 2^53 + 1) and the republish then leaves 0:
    the winner does not get the 1 back. *)
Lemma close_then_republish_leaves_residue :
  let closed := closeAuction sampleDate flatRate jan2 auctionA residueStore in
  users residueStore !! winner = Some (mkUser (num 1) (num 0) (num 0)) ∧
  currentBid <$> auctions residueStore !! auctionA = Some (num 9007199254740992) ∧
  moneySpent <$> users closed !! winner = Some (num 9007199254740992) ∧
  response_status
    (republishItem sampleDate isHexObjectId (republishEnv jan2)
       republishRequest closed).1 = Some 200 ∧
  moneySpent <$>
    users (republishItem sampleDate isHexObjectId (republishEnv jan2)
             republishRequest closed).2 !! winner = Some (num 0) ∧
  num 0 ≠ num 1.
Proof. repeat split; vm_compute; try reflexivity; discriminate. Qed.

(** The same with fractional amounts: 0.1 + 0.2 - 0.2 is not 0.1. *)
Example fractional_residue :
  SFsub 53 1024 (SFadd 53 1024 tenth fifth) fifth =
    S754_finite false 7205759403792796 (-56) ∧
  tenth = S754_finite false 7205759403792794 (-56).
Proof. split; vm_compute; reflexivity. Qed.

(** And through the two operations: a winner who has spent 0.1 and wins with
    a bid of 0.2 holds 0.1 + 4 * 2^-56 after the close and the republish. *)
Example close_then_republish_fraction :
  let closed := closeAuction sampleDate flatRate jan2 auctionA fractionStore in
  moneySpent <$> users fractionStore !! winner = Some tenth ∧
  response_status
    (republishItem sampleDate isHexObjectId (republishEnv jan2)
       republishRequest closed).1 = Some 200 ∧
  moneySpent <$>
    users (republishItem sampleDate isHexObjectId (republishEnv jan2)
             republishRequest closed).2 !! winner
    = Some (S754_finite false 7205759403792796 (-56)).
Proof. repeat split; vm_compute; reflexivity. Qed.

(** C7: on the ended sample auction, a republish request without its
    [startTime] is turned away through an error that carries no status code,
    and the error middleware answers it with status 500. *)
Theorem republish_missing_startTime_answers_500 :
  auctions settledStore !! rp_id republishNoStart =
    Some (endedAuction (Some winner) true) ∧
  time_gt (sampleDate (endTime (endedAuction (Some winner) true))) (TimeMs jan2)
    = false ∧
  rp_startTime republishNoStart = "" ∧
  republishItem sampleDate isHexObjectId (republishEnv jan2) republishNoStart settledStore =
    (Next (ErrorHandler "Start time and end time for republish are mandatory." None),
     settledStore) ∧
  response_status
    (republishItem sampleDate isHexObjectId (republishEnv jan2) republishNoStart settledStore).1
    = Some 500.
Proof. repeat split; vm_compute; reflexivity. Qed.

(** C10: there is a republish request on an ended auction whose
    [highestBidder] names a user that is no longer in the store, for which
    the settlement reversal throws on the null lookup result; the handler
    stops there, the store (and so the auction) is as before, and the client
    gets status 500. *)
Theorem republish_with_deleted_winner_aborts :
  ∃ (now : Z) (req : republish_request) (st : store) (a : Auction) (w : string),
    auctions st !! rp_id req = Some a ∧
    time_gt (sampleDate (endTime a)) (TimeMs now) = false ∧
    highestBidder a = Some w ∧
    users st !! w = None ∧
    republishItem sampleDate isHexObjectId (republishEnv now) req st =
      (Throws (TypeError "Cannot read properties of null (reading 'moneySpent')"),
       st) ∧
    response_status (republishItem sampleDate isHexObjectId (republishEnv now) req st).1
      = Some 500.
Proof.
  exists jan2, republishRequest, orphanStore,
         (endedAuction (Some deletedUser) true), deletedUser.
  assert (Ha : auctions orphanStore !! rp_id republishRequest =
               Some (endedAuction (Some deletedUser) true))
    by (vm_compute; reflexivity).
  assert (Hu : users orphanStore !! deletedUser = None) by (vm_compute; reflexivity).
  assert (Hgt : time_gt (sampleDate (endTime (endedAuction (Some deletedUser) true)))
                        (TimeMs jan2) = false) by (vm_compute; reflexivity).
  pose proof (republishItem_missing_winner sampleDate isHexObjectId (republishEnv jan2)
                republishRequest orphanStore _ deletedUser
                eq_refl Ha Hgt eq_refl eq_refl eq_refl eq_refl eq_refl Hu) as Hthrow.
  rewrite Hthrow. done.
Qed.

(** ** Sorting *)

Section array_sort_facts.
Context {A : Type} (compareFn : A → A → Z).

Hypothesis compare_total : ∀ x y, not_after compareFn x y ∨ not_after compareFn y x.
Hypothesis compare_trans :
  ∀ x y z, not_after compareFn x y → not_after compareFn y z → not_after compareFn x z.

Lemma sort_insert_Permutation (x : A) (l : list A) :
  sort_insert compareFn x l ≡ₚ x :: l.
Proof.
  induction l as [|y l IH]; simpl; [done|].
  case_bool_decide; [done|].
  rewrite IH. apply Permutation_swap.
Qed.

Lemma array_sort_Permutation (l : list A) : array_sort compareFn l ≡ₚ l.
Proof.
  induction l as [|x l IH]; simpl; [done|].
  rewrite sort_insert_Permutation. by rewrite IH.
Qed.

Lemma sort_insert_sorted (x : A) (l : list A) :
  StronglySorted (not_after compareFn) l → StronglySorted (not_after compareFn) (sort_insert compareFn x l).
Proof.
  induction 1 as [|y l Hl IH Hy]; simpl.
  - repeat constructor.
  - case_bool_decide as Hxy.
    + constructor; [by constructor|].
      constructor; [exact Hxy|].
      eapply Forall_impl; [exact Hy|]. intros z Hz. by eapply compare_trans.
    + constructor; [exact IH|].
      rewrite sort_insert_Permutation. constructor; [|exact Hy].
      destruct (compare_total x y) as [?|?]; [done|done].
Qed.

Lemma array_sort_sorted (l : list A) :
  StronglySorted (not_after compareFn) (array_sort compareFn l).
Proof.
  induction l as [|x l IH]; simpl; [constructor|].
  by apply sort_insert_sorted.
Qed.

End array_sort_facts.

(** ** List and detail *)

Lemma StronglySorted_weaken {A : Type} (R S : A → A → Prop) (l : list A) :
  (∀ x y, R x y → S x y) → StronglySorted R l → StronglySorted S l.
Proof.
  intros HRS. induction 1 as [|x l Hl IH Hx]; constructor; [exact IH|].
  eapply Forall_impl; [exact Hx|]. intros y. apply HRS.
Qed.

Lemma by_amount_desc_sorted (l : list (string * Bid)) :
  StronglySorted (λ x y, amount y.2 ≤ amount x.2) (array_sort by_amount_desc l).
Proof.
  apply StronglySorted_weaken with (R := not_after by_amount_desc).
  - unfold not_after, by_amount_desc. intros x y. lia.
  - apply array_sort_sorted; unfold not_after, by_amount_desc; intros; lia.
Qed.

(** The ids of the populated documents are the references that name a
    document, in the order of the references. *)
Lemma populate_ids (st : store) (refs : list string) :
  (populate st refs).*1 = filter (λ k, is_Some (bidRecords st !! k)) refs.
Proof.
  induction refs as [|r refs IH]; [done|].
  change (populate st (r :: refs))
    with (match (λ b, (r, b)) <$> bidRecords st !! r with
          | Some y => y :: populate st refs
          | None => populate st refs
          end).
  rewrite filter_cons.
  destruct (decide (is_Some (bidRecords st !! r))) as [[b Hb]|Hn].
  - rewrite Hb.
    change (r :: (populate st refs).*1 =
            r :: filter (λ k, is_Some (bidRecords st !! k)) refs).
    by rewrite IH.
  - assert (bidRecords st !! r = None) as ->.
    { destruct (bidRecords st !! r); [exfalso; eauto|done]. }
    exact IH.
Qed.

Lemma populate_lookup (st : store) (refs : list string) (k : string) (b : Bid) :
  (k, b) ∈ populate st refs → bidRecords st !! k = Some b.
Proof.
  unfold populate. rewrite list_elem_of_omap.
  intros (r & _ & Hf). destruct (bidRecords st !! r) as [b'|] eqn:Hb;
    simpl in Hf; [|discriminate].
  inversion Hf; subst. done.
Qed.

(** C8: the list operation answers with the stored auctions, each once and
    each with its fields but without [bids]; the detail operation, for an
    existing auction, answers with the auction and the Bid documents its
    [bids] refer to, ordered by [amount], highest first. *)
Theorem list_omits_bids_detail_sorts_bids (isValid : string → bool) (st : store) :
  (∃ items,
     getAllItems st = (Json 200 (mkListResponse true items), st) ∧
     NoDup items.*1 ∧
     (∀ k, k ∈ items.*1 ↔ is_Some (auctions st !! k)) ∧
     (∀ k d, (k, d) ∈ items →
             bids d = None ∧
             ∃ x, auctions st !! k = Some x ∧ same_fields d x)) ∧
  (∀ id a,
     isValid id = true →
     auctions st !! id = Some a →
     ∃ d bidders,
       getAuctionDetails isValid id st =
         (Json 200 (mkDetailsResponse true (id, d) bidders), st) ∧
       bids d = bidders ∧ same_fields d a ∧
       bidders.*1 ≡ₚ filter (λ k, is_Some (bidRecords st !! k)) (bids a) ∧
       (∀ k b, (k, b) ∈ bidders → bidRecords st !! k = Some b) ∧
       StronglySorted (λ x y, amount y.2 ≤ amount x.2) bidders).
Proof.
  split.
  - eexists. split; [reflexivity|].
    assert (Hids : (select_minus_bids <$> map_to_list (auctions st)).*1
                   = (map_to_list (auctions st)).*1).
    { rewrite <- list_fmap_compose. by apply list_fmap_ext. }
    split_and!.
    + rewrite Hids. apply NoDup_fst_map_to_list.
    + intros k. rewrite Hids. rewrite list_elem_of_fmap. split.
      * intros ([k' x] & -> & Hin). apply elem_of_map_to_list in Hin. eauto.
      * intros [x Hx]. exists (k, x). split; [done|]. by apply elem_of_map_to_list.
    + intros k d Hin. apply list_elem_of_fmap in Hin as ([k' x] & Heq & Hin).
      inversion Heq; subst. apply elem_of_map_to_list in Hin.
      split; [done|]. exists x. split; [done|]. simpl. done.
  - intros id a Hv Ha. eexists _, _. unfold getAuctionDetails. rewrite Hv, Ha. simpl.
    split; [reflexivity|]. split; [done|]. split; [simpl; done|]. split_and!.
    + rewrite (array_sort_Permutation by_amount_desc). by rewrite populate_ids.
    + intros k b Hin. rewrite (array_sort_Permutation by_amount_desc) in Hin.
      by eapply populate_lookup.
    + apply by_amount_desc_sorted.
Qed.

Lemma list_omits_bids_detail_sorts_bids_witness :
  ∃ d bidders,
    getAuctionDetails isHexObjectId auctionA settledStore =
      (Json 200 (mkDetailsResponse true (auctionA, d) bidders), settledStore) ∧
    bids d = bidders ∧
    bidders.*1 ≡ₚ [bid1; bid2; bid3] ∧
    (∀ k b, (k, b) ∈ bidders → bidRecords settledStore !! k = Some b) ∧
    StronglySorted (λ x y, amount y.2 ≤ amount x.2) bidders.
Proof.
  destruct (proj2 (list_omits_bids_detail_sorts_bids isHexObjectId settledStore)
              auctionA (endedAuction (Some winner) true))
    as (d & bidders & Hd & Hb & _ & Hp & Hl & Hs).
  - vm_compute; reflexivity.
  - vm_compute; reflexivity.
  - exists d, bidders. split_and!; [exact Hd|exact Hb| |exact Hl|exact Hs].
    rewrite Hp. vm_compute. reflexivity.
Defined.

(** The bidders of the sample auction, as the detail operation orders them. *)
Example sample_bidders_amounts :
  match (getAuctionDetails isHexObjectId auctionA settledStore).1 with
  | Json _ body => (λ d, amount d.2) <$> dres_bidders body
  | _ => []
  end = [200; 150; 120].
Proof. vm_compute. reflexivity. Qed.

(** ** Create *)

Section create.
Variable newDate : string → time_value.

(** The query of line 68 finds something exactly when the seller has an
    auction whose [endTime] is after the reading of the clock. *)
Lemma find_unended_nonempty (uid : string) (now : Z) (st : store) :
  (0 < length (find_unended newDate uid now st))%nat ↔
  ∃ id a, auctions st !! id = Some a ∧ createdBy a = uid ∧
          time_gt (newDate (endTime a)) (TimeMs now) = true.
Proof.
  unfold find_unended. split.
  - intros Hlen.
    destruct (filter _ (map_to_list (auctions st))) as [|[id a] l] eqn:Hf;
      [simpl in Hlen; lia|].
    assert (Hin : (id, a) ∈ filter
              (λ d : string * Auction, createdBy d.2 = uid ∧
                 time_gt (newDate (endTime d.2)) (TimeMs now) = true)
              (map_to_list (auctions st))) by (rewrite Hf; left).
    apply list_elem_of_filter in Hin as [[Hc Hgt] Hin].
    apply elem_of_map_to_list in Hin. by exists id, a.
  - intros (id & a & Ha & Hc & Hgt).
    assert (Hin : (id, a) ∈ filter
              (λ d : string * Auction, createdBy d.2 = uid ∧
                 time_gt (newDate (endTime d.2)) (TimeMs now) = true)
              (map_to_list (auctions st))).
    { apply list_elem_of_filter. split; [done|]. by apply elem_of_map_to_list. }
    destruct (filter _ (map_to_list (auctions st))); [by inversion Hin|simpl; lia].
Qed.

(** A request stopped by one of its guards leaves the store alone. *)
Lemma addNewAuctionItem_checks_fail (env : create_env) (req : create_request)
    (st : store) (failed : outcome create_response) :
  create_checks newDate (now_schedule env) req = Some failed →
  addNewAuctionItem newDate env req st = (failed, st).
Proof. intros H. unfold addNewAuctionItem. by rewrite H. Qed.

Local Ltac stopped :=
  eexists; split; [|reflexivity]; intros ? ?; discriminate.

(** A [startTime] before the present time, or one that is not before
    [endTime], stops the request at one of the guards: nothing is created. *)
Lemma create_bad_schedule_refused (env : create_env) (req : create_request)
    (st : store) (s e : Z) :
  newDate (body_startTime (req_body req)) = TimeMs s →
  newDate (body_endTime (req_body req)) = TimeMs e →
  s < now_schedule env ∨ e ≤ s →
  ∃ failed, (∀ status body, failed ≠ Json status body) ∧
            addNewAuctionItem newDate env req st = (failed, st).
Proof.
  intros Hs He Hbad.
  assert (∃ failed, (∀ status body, failed ≠ Json status body) ∧
            create_checks newDate (now_schedule env) req = Some failed)
    as (failed & Hnot & Hc).
  { unfold create_checks. rewrite Hs, He. unfold time_lt, time_ge.
    destruct (req_files req) as [files|]; [|stopped].
    case_bool_decide; [stopped|].
    destruct (files !! "image") as [image|]; [|stopped].
    destruct (negb (includes allowedFormats (mimetype image))); [stopped|].
    destruct (_ || _); [stopped|].
    destruct Hbad as [Hlt|Hge].
    - rewrite bool_decide_eq_true_2 by lia. stopped.
    - case_bool_decide; [stopped|].
      rewrite bool_decide_eq_true_2 by lia. stopped. }
  exists failed. split; [exact Hnot|]. by apply addNewAuctionItem_checks_fail.
Qed.

(** Whatever the request, a seller who has an auction whose [endTime] is
    after the present time gets no auction created. *)
Lemma create_with_unended_auction_not_created (env : create_env)
    (req : create_request) (st : store) :
  (∃ id a, auctions st !! id = Some a ∧ createdBy a = req_user req ∧
           time_gt (newDate (endTime a)) (TimeMs (now_query env)) = true) →
  ∃ failed, (∀ status body, failed ≠ Json status body) ∧
            addNewAuctionItem newDate env req st = (failed, st).
Proof.
  intros Hex. unfold addNewAuctionItem.
  destruct (create_checks newDate (now_schedule env) req) as [failed|] eqn:Hc.
  - exists failed. split; [|reflexivity].
    revert Hc. unfold create_checks.
    repeat (case_match; try discriminate); intros; simplify_eq; discriminate.
  - apply find_unended_nonempty in Hex. rewrite bool_decide_eq_true_2 by done.
    stopped.
Qed.

(** C1 (as the code has it): for a create request that passes the image,
    required-field and scheduling guards, if the seller has an auction whose
    [endTime] is after the present time, started or not, the request is
    refused with "You already have one active auction." (status 400) and the
    store is left as it was; if the seller has no such auction, the request
    is not refused with that error. *)
Theorem create_refused_while_seller_has_unended_auction (env : create_env)
    (req : create_request) (st : store) :
  create_checks newDate (now_schedule env) req = None →
  ((∃ id a, auctions st !! id = Some a ∧ createdBy a = req_user req ∧
            time_gt (newDate (endTime a)) (TimeMs (now_query env)) = true) →
   addNewAuctionItem newDate env req st =
     (Next (ErrorHandler "You already have one active auction." (Some 400)), st)) ∧
  ((∀ id a, auctions st !! id = Some a → createdBy a = req_user req →
            time_gt (newDate (endTime a)) (TimeMs (now_query env)) = false) →
   ∀ st', addNewAuctionItem newDate env req st ≠
            (Next (ErrorHandler "You already have one active auction." (Some 400)),
             st')).
Proof.
  intros Hchecks. unfold addNewAuctionItem. rewrite Hchecks. split.
  - intros Hex. apply find_unended_nonempty in Hex.
    by rewrite bool_decide_eq_true_2.
  - intros Hnone st'.
    rewrite bool_decide_eq_false_2.
    + destruct (upload env) as [error|[response|]];
        [| destruct (cl_error response) |]; intros H; inversion H.
    + intros Hlen. apply find_unended_nonempty in Hlen as (id & a & Ha & Hc & Hgt).
      rewrite (Hnone id a Ha Hc) in Hgt. discriminate.
Qed.

End create.

Lemma create_refused_while_seller_has_unended_auction_witness :
  addNewAuctionItem sampleDate (createEnv jan1)
    (createRequest "2030-01-02T00:00:00.000Z" "2030-01-03T00:00:00.000Z")
    scheduledStore =
  (Next (ErrorHandler "You already have one active auction." (Some 400)),
   scheduledStore).
Proof.
  refine (proj1 (create_refused_while_seller_has_unended_auction sampleDate
                   (createEnv jan1)
                   (createRequest "2030-01-02T00:00:00.000Z"
                                  "2030-01-03T00:00:00.000Z")
                   scheduledStore _) _).
  - vm_compute; reflexivity.
  - exists auctionB, scheduledAuction. repeat split; vm_compute; reflexivity.
Defined.

(** On 1 January 2030 the seller's only auction starts on 3 January: the
    seller has no active auction, the request is well formed, and it is
    refused by the check on the seller's auctions all the same. *)
Lemma create_refused_without_active_auction :
  create_checks sampleDate jan1
    (createRequest "2030-01-02T00:00:00.000Z" "2030-01-03T00:00:00.000Z") = None ∧
  (∀ id a, auctions scheduledStore !! id = Some a → createdBy a = seller →
           ¬ active_at sampleDate jan1 a) ∧
  addNewAuctionItem sampleDate (createEnv jan1)
    (createRequest "2030-01-02T00:00:00.000Z" "2030-01-03T00:00:00.000Z")
    scheduledStore =
  (Next (ErrorHandler "You already have one active auction." (Some 400)),
   scheduledStore).
Proof.
  split; [vm_compute; reflexivity|]. split; [|vm_compute; reflexivity].
  intros id a Ha _ (s & e & Hs & _ & Hle & _).
  unfold scheduledStore in Ha. simpl in Ha.
  apply lookup_insert_Some in Ha as [[_ <-]|[_ Ha]]; [|by rewrite lookup_empty in Ha].
  vm_compute in Hs. inversion Hs; subst s. unfold jan1 in Hle. lia.
Qed.

(** C2: a create request whose [startTime] is exactly the present time, and
    is otherwise in order, passes every guard: it is answered with status
    201 and the auction is in the store afterwards. *)
Theorem create_accepts_startTime_equal_to_now :
  sampleDate "2030-01-01T00:00:00.000Z" = TimeMs (now_schedule (createEnv jan1)) ∧
  auctions emptyStore !! auctionA = None ∧
  ∃ body st',
    addNewAuctionItem sampleDate (createEnv jan1)
      (createRequest "2030-01-01T00:00:00.000Z" "2030-01-02T00:00:00.000Z")
      emptyStore = (Json 201 body, st') ∧
    (startTime <$> auctions st' !! auctionA) = Some "2030-01-01T00:00:00.000Z".
Proof.
  split; [vm_compute; reflexivity|]. split; [vm_compute; reflexivity|].
  eexists _, _. split; vm_compute; reflexivity.
Qed.

(** * Further properties of the error middleware *)

Lemma truthy_nonempty (s : string) : truthy s = true → s ≠ "".
Proof. intros H ->. discriminate. Qed.

Lemma statusCode_or_nonzero (c : option Z) (d : Z) :
  d ≠ 0 → statusCode_or c d ≠ 0.
Proof.
  intros Hd. unfold statusCode_or. destruct c as [n|]; [|done].
  case_bool_decide; done.
Qed.

(** X1: the middleware always answers with a status, never 0, and which one
    is settled by the error: 401 for an error named JsonWebTokenError or
    TokenExpiredError, 400 for one named CastError or ValidationError, and
    for any other error the status code it carries, or 500 when it carries
    none or 0. *)
Theorem errorMiddleware_status_defined (err : js_error) :
  ∃ c, er_status (errorMiddleware err) = Some c ∧ c ≠ 0 ∧
       (err_name err = "JsonWebTokenError" ∨ err_name err = "TokenExpiredError" →
        c = 401) ∧
       (err_name err = "CastError" ∨ err_name err = "ValidationError" →
        c = 400) ∧
       (err_name err ≠ "JsonWebTokenError" → err_name err ≠ "TokenExpiredError" →
        err_name err ≠ "CastError" → err_name err ≠ "ValidationError" →
        (∀ n, err_statusCode err = Some n → n ≠ 0 → c = n) ∧
        (err_statusCode err = None ∨ err_statusCode err = Some 0 → c = 500)).
Proof.
  unfold errorMiddleware, set_status_message; simpl.
  destruct (String.eqb_spec (err_name err) "JsonWebTokenError") as [Hj|Hj]; simpl.
  { exists 401. rewrite Hj. split_and!; try done.
    intros [?|?]; discriminate. }
  destruct (String.eqb_spec (err_name err) "TokenExpiredError") as [Ht|Ht]; simpl.
  { exists 401. rewrite Ht. split_and!; try done.
    intros [?|?]; discriminate. }
  destruct (String.eqb_spec (err_name err) "CastError") as [Hc|Hc]; simpl.
  { exists 400. rewrite Hc. split_and!; try done.
    intros [?|?]; discriminate. }
  destruct (String.eqb_spec (err_name err) "ValidationError") as [Hv|Hv]; simpl.
  { exists 400. rewrite Hv. split_and!; try done.
    intros [?|?]; discriminate. }
  eexists. split; [reflexivity|]. split; [by apply statusCode_or_nonzero|].
  split; [intros [?|?]; done|]. split; [intros [?|?]; done|].
  intros _ _ _ _. unfold statusCode_or. split.
  - intros n -> Hn. by rewrite bool_decide_eq_false_2.
  - intros [->| ->]; done.
Qed.

Lemma errorMiddleware_status_defined_witness :
  er_status (errorMiddleware (ErrorHandler "Auction not found." (Some 404)))
  = Some 404.
Proof.
  destruct (errorMiddleware_status_defined
              (ErrorHandler "Auction not found." (Some 404)))
    as (c & Hc & _ & _ & _ & Hother).
  destruct Hother as [Hcarried _]; try discriminate.
  rewrite Hc. f_equal. by apply Hcarried.
Defined.

(** X2: an error named after one of the four special kinds is answered with the
    status and message of its kind, whatever status and message it carried. *)
Theorem errorMiddleware_named_errors (err : js_error) :
  (err_name err = "JsonWebTokenError" →
   errorMiddleware err =
     mkErrorResponse (Some 401) false "Invalid token. Please try again.") ∧
  (err_name err = "TokenExpiredError" →
   errorMiddleware err =
     mkErrorResponse (Some 401) false "Token has expired. Please login again.") ∧
  (err_name err = "CastError" →
   errorMiddleware err =
     mkErrorResponse (Some 400) false
       ("Invalid " ++ err_path err ++ ": " ++ err_value err)) ∧
  (err_name err = "ValidationError" →
   errorMiddleware err =
     mkErrorResponse (Some 400) false (join ", " (err_errors err))).
Proof.
  unfold errorMiddleware, set_status_message; simpl.
  repeat split; intros ->; reflexivity.
Qed.

Lemma errorMiddleware_named_errors_witness :
  errorMiddleware (mkError "ValidationError" "Auction validation failed"
                           (Some 500) "" ""
                           ["Title is required."; "Category is required."]) =
  mkErrorResponse (Some 400) false "Title is required., Category is required.".
Proof.
  refine (proj2 (proj2 (proj2 (errorMiddleware_named_errors _))) _).
  reflexivity.
Defined.

(** X3: the message of the answer is never empty, unless the error is a
    [ValidationError] (whose answer joins the messages of [err.errors] and
    does not fall back to a default). *)
Theorem errorMiddleware_message_nonempty (err : js_error) :
  err_name err ≠ "ValidationError" →
  er_message (errorMiddleware err) ≠ "".
Proof.
  intros Hname. unfold errorMiddleware, set_status_message; simpl.
  destruct (String.eqb (err_name err) "JsonWebTokenError"); simpl; [done|].
  destruct (String.eqb (err_name err) "TokenExpiredError"); simpl; [done|].
  destruct (String.eqb (err_name err) "CastError"); simpl; [done|].
  destruct (String.eqb (err_name err) "ValidationError") eqn:Hv; simpl.
  - apply String.eqb_eq in Hv. done.
  - unfold message_or. destruct (truthy (err_message err)) eqn:Ht; [|done].
    by apply truthy_nonempty.
Qed.

Lemma errorMiddleware_message_nonempty_witness :
  er_message (errorMiddleware (TypeError "")) ≠ "".
Proof.
  refine (errorMiddleware_message_nonempty (TypeError "") _).
  discriminate.
Defined.

(** A [ValidationError] without [errors] is answered with an empty message. *)
Example errorMiddleware_validation_empty_message :
  errorMiddleware (mkError "ValidationError" "Validation failed" None "" "" []) =
  mkErrorResponse (Some 400) false "".
Proof. reflexivity. Qed.

(** * Further properties of create *)

Section create_more.
Variable newDate : string → time_value.
Variable isValid : string → bool.

(** What a request that passes the guards of lines 11-66 looks like. *)
Lemma create_checks_None_inv (now : Z) (req : create_request) :
  create_checks newDate now req = None →
  ∃ files image,
    req_files req = Some files ∧ files !! "image" = Some image ∧
    includes allowedFormats (mimetype image) = true ∧
    (truthy (body_title (req_body req)) = true ∧
     truthy (body_description (req_body req)) = true ∧
     truthy (body_category (req_body req)) = true ∧
     truthy (body_condition (req_body req)) = true ∧
     truthy (body_startingBid (req_body req)) = true ∧
     truthy (body_startTime (req_body req)) = true ∧
     truthy (body_endTime (req_body req)) = true) ∧
    time_lt (newDate (body_startTime (req_body req))) (TimeMs now) = false ∧
    time_ge (newDate (body_startTime (req_body req)))
            (newDate (body_endTime (req_body req))) = false.
Proof.
  unfold create_checks. intros H.
  destruct (req_files req) as [files|] eqn:Hf; [|discriminate].
  case_bool_decide; [discriminate|].
  destruct (files !! "image") as [image|] eqn:Hi; [|discriminate].
  destruct (includes allowedFormats (mimetype image)) eqn:Hfmt;
    simpl in H; [|discriminate].
  destruct (truthy (body_title (req_body req))); simpl in H; [|discriminate].
  destruct (truthy (body_description (req_body req))); simpl in H; [|discriminate].
  destruct (truthy (body_category (req_body req))); simpl in H; [|discriminate].
  destruct (truthy (body_condition (req_body req))); simpl in H; [|discriminate].
  destruct (truthy (body_startingBid (req_body req))); simpl in H; [|discriminate].
  destruct (truthy (body_startTime (req_body req))); simpl in H; [|discriminate].
  destruct (truthy (body_endTime (req_body req))); simpl in H; [|discriminate].
  destruct (time_lt _ _); [discriminate|].
  destruct (time_ge _ _); [discriminate|].
  exists files, image. done.
Qed.

(** The guards never answer with a response. *)
Lemma create_checks_not_Json (now : Z) (req : create_request)
    (failed : outcome create_response) :
  create_checks newDate now req = Some failed →
  ∀ status body, failed ≠ Json status body.
Proof.
  unfold create_checks.
  repeat (case_match; try discriminate); intros; simplify_eq; discriminate.
Qed.

(** Every 201 of addNewAuctionItem passed the guards, found no unended
    auction of the seller, got an answer without error from the image host,
    and inserted [created_auction] under the new id. *)
Lemma addNewAuctionItem_Json_inv (env : create_env) (req : create_request)
    (st st' : store) (status : Z) (body : create_response) :
  addNewAuctionItem newDate env req st = (Json status body, st') →
  create_checks newDate (now_schedule env) req = None ∧
  find_unended newDate (req_user req) (now_query env) st = [] ∧
  ∃ r, upload env = UploadResolved (Some r) ∧ cl_error r = false ∧
       status = 201 ∧
       body = mkCreateResponse true
                ("Auction item created and will be listed on the auction page at "
                 ++ body_startTime (req_body req))
                (new_id env, created_auction req r) ∧
       st' = with_auctions st (<[new_id env := created_auction req r]> (auctions st)).
Proof.
  unfold addNewAuctionItem. intros H.
  destruct (create_checks newDate (now_schedule env) req) as [failed|] eqn:Hc.
  { inversion H; subst. by destruct (create_checks_not_Json _ _ _ Hc status body). }
  case_bool_decide as Hlen; [discriminate|].
  destruct (upload env) as [error|[r|]]; [discriminate| |discriminate].
  destruct (cl_error r) eqn:Hr; [discriminate|].
  inversion H; subst. split; [done|]. split.
  - destruct (find_unended _ _ _ _); [done|]. simpl in Hlen. lia.
  - exists r. done.
Qed.

(** X4: every 201 answer of addNewAuctionItem comes with exactly one write: the
    new document, stored under the new id, owned by the requester and
    carrying the seven fields of the request, none of them empty; the Bid
    and User collections are as before. *)
Theorem create_adds_one_document (env : create_env) (req : create_request)
    (st st' : store) (status : Z) (body : create_response) :
  addNewAuctionItem newDate env req st = (Json status body, st') →
  status = 201 ∧
  ∃ a, cres_auctionItem body = (new_id env, a) ∧
       auctions st' = <[new_id env := a]> (auctions st) ∧
       bidRecords st' = bidRecords st ∧ users st' = users st ∧
       createdBy a = req_user req ∧
       title a = body_title (req_body req) ∧
       description a = body_description (req_body req) ∧
       category a = body_category (req_body req) ∧
       condition a = body_condition (req_body req) ∧
       startingBid a = body_startingBid (req_body req) ∧
       startTime a = body_startTime (req_body req) ∧
       endTime a = body_endTime (req_body req) ∧
       title a ≠ "" ∧ description a ≠ "" ∧ category a ≠ "" ∧ condition a ≠ "" ∧
       startingBid a ≠ "" ∧ startTime a ≠ "" ∧ endTime a ≠ "".
Proof.
  intros H. apply addNewAuctionItem_Json_inv in H
    as (Hc & _ & r & _ & _ & -> & -> & ->).
  apply create_checks_None_inv in Hc
    as (files & image & _ & _ & _ & (H1 & H2 & H3 & H4 & H5 & H6 & H7) & _ & _).
  split; [done|]. exists (created_auction req r). simpl.
  split_and!; try done; by apply truthy_nonempty.
Qed.

(** X5: an auction that addNewAuctionItem creates with a [startTime] and an
    [endTime] that are dates starts no earlier than the clock reading of
    line 50 and strictly before it ends. *)
Theorem create_schedule_in_order (env : create_env) (req : create_request)
    (st st' : store) (status : Z) (body : create_response) (s e : Z) :
  addNewAuctionItem newDate env req st = (Json status body, st') →
  newDate (body_startTime (req_body req)) = TimeMs s →
  newDate (body_endTime (req_body req)) = TimeMs e →
  now_schedule env ≤ s ∧ s < e.
Proof.
  intros H Hs He. apply addNewAuctionItem_Json_inv in H as (Hc & _).
  apply create_checks_None_inv in Hc as (files & image & _ & _ & _ & _ & Hlt & Hge).
  rewrite Hs in Hlt, Hge. rewrite He in Hge. simpl in Hlt, Hge.
  apply bool_decide_eq_false in Hlt, Hge. lia.
Qed.

(** X6: a [startTime] that is not a date passes both schedule guards (lines
    50-66): every comparison with an invalid date is false. *)
Theorem create_checks_pass_invalid_dates (now : Z) (req : create_request)
    (files : gmap string UploadedFile) (image : UploadedFile) :
  req_files req = Some files →
  files !! "image" = Some image →
  includes allowedFormats (mimetype image) = true →
  truthy (body_title (req_body req)) = true →
  truthy (body_description (req_body req)) = true →
  truthy (body_category (req_body req)) = true →
  truthy (body_condition (req_body req)) = true →
  truthy (body_startingBid (req_body req)) = true →
  truthy (body_startTime (req_body req)) = true →
  truthy (body_endTime (req_body req)) = true →
  newDate (body_startTime (req_body req)) = InvalidDate →
  create_checks newDate now req = None.
Proof.
  intros Hf Hi Hfmt H1 H2 H3 H4 H5 H6 H7 Hs. unfold create_checks.
  rewrite Hf. rewrite bool_decide_eq_false_2.
  - rewrite Hi, Hfmt, H1, H2, H3, H4, H5, H6, H7, Hs. reflexivity.
  - intros ->. by rewrite lookup_empty in Hi.
Qed.

(** Either nothing is written, or the answer is a response. *)
Lemma addNewAuctionItem_unchanged_or_Json (env : create_env) (req : create_request)
    (st st' : store) (o : outcome create_response) :
  addNewAuctionItem newDate env req st = (o, st') →
  st' = st ∨ ∃ status body, o = Json status body.
Proof.
  unfold addNewAuctionItem. intros H.
  destruct (create_checks newDate (now_schedule env) req) as [failed|];
    [inversion H; auto|].
  case_bool_decide; [inversion H; auto|].
  destruct (upload env) as [error|[r|]]; [inversion H; auto| |inversion H; auto].
  destruct (cl_error r); inversion H; eauto.
Qed.

Local Ltac one_of_three :=
  first [ left; reflexivity
        | right; left; reflexivity
        | right; right; reflexivity ].

(** X7: addNewAuctionItem is answered with status 201, 400 or 500, and it
    writes nothing unless it answers with a response. *)
Theorem create_answers_and_writes (env : create_env) (req : create_request)
    (st st' : store) (o : outcome create_response) :
  addNewAuctionItem newDate env req st = (o, st') →
  (response_status o = Some 201 ∨ response_status o = Some 400 ∨
   response_status o = Some 500) ∧
  ((∀ status body, o ≠ Json status body) → st' = st).
Proof.
  unfold addNewAuctionItem. intros H.
  destruct (create_checks newDate (now_schedule env) req) as [failed|] eqn:Hc.
  - inversion H; subst. split; [|done].
    revert Hc. unfold create_checks.
    repeat (case_match; try discriminate); intros; simplify_eq; one_of_three.
  - case_bool_decide.
    + inversion H; subst. split; [one_of_three|done].
    + destruct (upload env) as [error|[r|]].
      * inversion H; subst. split; [one_of_three|done].
      * destruct (cl_error r); inversion H; subst.
        -- split; [one_of_three|done].
        -- split; [one_of_three|]. intros Hn. exfalso. by eapply Hn.
      * inversion H; subst. split; [one_of_three|done].
Qed.

Lemma time_gt_earlier (t : time_value) (now now' : Z) :
  now ≤ now' → time_gt t (TimeMs now') = true → time_gt t (TimeMs now) = true.
Proof.
  intros Hle. destruct t as [ms|]; simpl; [|done].
  intros H. apply bool_decide_eq_true in H. apply bool_decide_eq_true_2. lia.
Qed.

(** X8: if no seller has two auctions ending after the clock reading of line
    70, that is still so after addNewAuctionItem, then and at any later
    time, whatever the request and its outcome. *)
Theorem create_keeps_one_unended_per_seller (env : create_env)
    (req : create_request) (st st' : store) (o : outcome create_response)
    (now' : Z) :
  one_unended_per_seller newDate (now_query env) st →
  addNewAuctionItem newDate env req st = (o, st') →
  now_query env ≤ now' →
  one_unended_per_seller newDate now' st'.
Proof.
  intros Hinv H Hle.
  assert (Hold : ∀ id1 id2 a1 a2,
             auctions st !! id1 = Some a1 → auctions st !! id2 = Some a2 →
             createdBy a1 = createdBy a2 →
             time_gt (newDate (endTime a1)) (TimeMs now') = true →
             time_gt (newDate (endTime a2)) (TimeMs now') = true → id1 = id2).
  { intros id1 id2 a1 a2 H1 H2 Hc G1 G2.
    eapply Hinv; eauto using time_gt_earlier. }
  destruct (addNewAuctionItem_unchanged_or_Json _ _ _ _ _ H)
    as [->|(status & body & ->)]; [exact Hold|].
  apply addNewAuctionItem_Json_inv in H as (_ & Hnone & r & _ & _ & _ & _ & ->).
  assert (Hfree : ∀ id a, auctions st !! id = Some a →
             createdBy a = req_user req →
             time_gt (newDate (endTime a)) (TimeMs now') = true → False).
  { intros id a Ha Hc Hgt.
    assert (Hex : (0 < length (find_unended newDate (req_user req) (now_query env) st))%nat).
    { apply find_unended_nonempty. exists id, a. eauto using time_gt_earlier. }
    rewrite Hnone in Hex. simpl in Hex. lia. }
  intros id1 id2 a1 a2 H1 H2 Hc G1 G2. simpl in H1, H2.
  apply lookup_insert_Some in H1 as [[<- <-]|[Hn1 H1]];
    apply lookup_insert_Some in H2 as [[E2 <-]|[Hn2 H2]]; simpl in *.
  - done.
  - destruct (Hfree id2 a2 H2); [by symmetry|done].
  - destruct (Hfree id1 a1 H1); done.
  - by eapply Hold.
Qed.

(** X9: once a seller has created an auction, a further create request of
    the same seller that passes the guards, made before that auction's
    [endTime], is refused and writes nothing. *)
Theorem create_twice_refused (env env2 : create_env) (req req2 : create_request)
    (st st' : store) (status : Z) (body : create_response) (e : Z) :
  addNewAuctionItem newDate env req st = (Json status body, st') →
  newDate (body_endTime (req_body req)) = TimeMs e →
  req_user req2 = req_user req →
  now_query env2 < e →
  create_checks newDate (now_schedule env2) req2 = None →
  addNewAuctionItem newDate env2 req2 st' =
    (Next (ErrorHandler "You already have one active auction." (Some 400)), st').
Proof.
  intros H He Hu Hlt Hc.
  apply addNewAuctionItem_Json_inv in H as (_ & _ & r & _ & _ & _ & _ & ->).
  unfold addNewAuctionItem at 1. rewrite Hc.
  rewrite bool_decide_eq_true_2; [done|].
  apply find_unended_nonempty. exists (new_id env), (created_auction req r).
  split; [apply lookup_insert_eq|]. split; [by simpl|].
  simpl. rewrite He. simpl. apply bool_decide_eq_true_2. lia.
Qed.

(** X10: an auction just created is found by getAuctionDetails under its new
    id, with no bidders. *)
Theorem create_then_details (env : create_env) (req : create_request)
    (st st' : store) (status : Z) (body : create_response) :
  addNewAuctionItem newDate env req st = (Json status body, st') →
  isValid (new_id env) = true →
  cres_auctionItem body = (new_id env, (cres_auctionItem body).2) ∧
  auctions st' !! new_id env = Some (cres_auctionItem body).2 ∧
  getAuctionDetails isValid (new_id env) st' =
    (Json 200
       (mkDetailsResponse true
          (new_id env, set_bids (cres_auctionItem body).2 []) []),
     st').
Proof.
  intros H Hv.
  apply addNewAuctionItem_Json_inv in H as (_ & _ & r & _ & _ & _ & -> & ->).
  simpl. split; [done|]. split; [apply lookup_insert_eq|].
  unfold getAuctionDetails. rewrite Hv. simpl. by rewrite lookup_insert_eq.
Qed.

End create_more.

Lemma create_adds_one_document_witness :
  ∃ a, auctions createdStore = <[auctionA := a]> ∅ ∧
       createdBy a = seller ∧ title a = "Vase" ∧
       users createdStore = ∅.
Proof.
  destruct (create_adds_one_document sampleDate (createEnv jan1) createJan2
              emptyStore createdStore 201 createdBody)
    as (_ & a & _ & Ha & _ & Hu & Hc & Ht & _).
  - vm_compute; reflexivity.
  - exists a. split_and!; [exact Ha | exact Hc | exact Ht | exact Hu].
Defined.

Lemma create_schedule_in_order_witness : jan1 ≤ jan2 ∧ jan2 < jan3.
Proof.
  refine (create_schedule_in_order sampleDate (createEnv jan1) createJan2
            emptyStore createdStore 201 createdBody jan2 jan3 _ _ _).
  - vm_compute; reflexivity.
  - vm_compute; reflexivity.
  - vm_compute; reflexivity.
Defined.

Lemma create_checks_pass_invalid_dates_witness :
  sampleDate "tomorrow" = InvalidDate ∧
  create_checks sampleDate jan1 createNoDate = None.
Proof.
  split; [reflexivity|].
  refine (create_checks_pass_invalid_dates sampleDate jan1 createNoDate
            (<["image" := pngFile]> ∅) pngFile _ _ _ _ _ _ _ _ _ _ _).
  all: vm_compute; reflexivity.
Defined.

Lemma create_answers_and_writes_witness :
  (response_status
     (Next (B := create_response)
        (ErrorHandler "You already have one active auction." (Some 400)))
   = Some 201 ∨
   response_status
     (Next (B := create_response)
        (ErrorHandler "You already have one active auction." (Some 400)))
   = Some 400 ∨
   response_status
     (Next (B := create_response)
        (ErrorHandler "You already have one active auction." (Some 400)))
   = Some 500) ∧
  ((∀ status body,
      Next (ErrorHandler "You already have one active auction." (Some 400))
      ≠ Json (B := create_response) status body) →
   scheduledStore = scheduledStore).
Proof.
  refine (create_answers_and_writes sampleDate (createEnv jan1) createJan2
            scheduledStore scheduledStore _ _).
  vm_compute; reflexivity.
Defined.

Lemma twoSellerStore_one_unended :
  one_unended_per_seller sampleDate jan2 twoSellerStore.
Proof.
  intros id1 id2 a1 a2 H1 H2 _ G1 G2. unfold twoSellerStore in H1, H2.
  simpl in H1, H2.
  apply lookup_insert_Some in H1 as [[<- <-]|[_ H1]];
    [vm_compute in G1; discriminate|].
  apply lookup_insert_Some in H2 as [[<- <-]|[_ H2]];
    [vm_compute in G2; discriminate|].
  apply lookup_insert_Some in H1 as [[<- _]|[_ H1]];
    [|by rewrite lookup_empty in H1].
  apply lookup_insert_Some in H2 as [[<- _]|[_ H2]];
    [|by rewrite lookup_empty in H2].
  reflexivity.
Qed.

Lemma create_keeps_one_unended_per_seller_witness :
  one_unended_per_seller sampleDate jan2
    (addNewAuctionItem sampleDate (createEnvWith jan2 auctionC) createJan3
       twoSellerStore).2.
Proof.
  refine (create_keeps_one_unended_per_seller sampleDate
            (createEnvWith jan2 auctionC) createJan3 twoSellerStore _
            (addNewAuctionItem sampleDate (createEnvWith jan2 auctionC) createJan3
               twoSellerStore).1 jan2 _ _ _).
  - exact twoSellerStore_one_unended.
  - apply surjective_pairing.
  - reflexivity.
Defined.

(** The create of the witness above does go through. *)
Example create_on_twoSellerStore_created :
  response_status
    (addNewAuctionItem sampleDate (createEnvWith jan2 auctionC) createJan3
       twoSellerStore).1 = Some 201.
Proof. vm_compute. reflexivity. Qed.

Lemma create_twice_refused_witness :
  addNewAuctionItem sampleDate (createEnvWith jan2 auctionB) createJan3 createdStore =
    (Next (ErrorHandler "You already have one active auction." (Some 400)),
     createdStore).
Proof.
  refine (create_twice_refused sampleDate (createEnv jan1)
            (createEnvWith jan2 auctionB) createJan2 createJan3 emptyStore
            createdStore 201 createdBody jan3 _ _ _ _ _).
  - vm_compute; reflexivity.
  - vm_compute; reflexivity.
  - reflexivity.
  - vm_compute; reflexivity.
  - vm_compute; reflexivity.
Defined.

Lemma create_then_details_witness :
  cres_auctionItem createdBody = (auctionA, (cres_auctionItem createdBody).2) ∧
  auctions createdStore !! auctionA = Some (cres_auctionItem createdBody).2 ∧
  getAuctionDetails isHexObjectId auctionA createdStore =
    (Json 200
       (mkDetailsResponse true
          (auctionA, set_bids (cres_auctionItem createdBody).2 []) []),
     createdStore).
Proof.
  refine (create_then_details sampleDate isHexObjectId (createEnv jan1) createJan2
            emptyStore createdStore 201 createdBody _ _).
  - vm_compute; reflexivity.
  - vm_compute; reflexivity.
Defined.

(** * Further properties of the read operations and of removal *)

Lemma populate_length (st : store) (refs : list string) :
  (length (populate st refs) ≤ length refs)%nat.
Proof.
  induction refs as [|r refs IH]; [done|].
  change (populate st (r :: refs))
    with (match (λ b, (r, b)) <$> bidRecords st !! r with
          | Some y => y :: populate st refs
          | None => populate st refs
          end).
  destruct (bidRecords st !! r); simpl; lia.
Qed.

Lemma populate_elem_of (st : store) (refs : list string) (k : string) (b : Bid) :
  (k, b) ∈ populate st refs ↔ k ∈ refs ∧ bidRecords st !! k = Some b.
Proof.
  unfold populate. rewrite list_elem_of_omap. split.
  - intros (r & Hr & Hf). destruct (bidRecords st !! r) as [b'|] eqn:Hb;
      simpl in Hf; [|discriminate].
    inversion Hf; subst. done.
  - intros [Hk Hb]. exists k. by rewrite Hb.
Qed.

(** Inserting keeps the stored order among the bids of any one amount: the
    elements the new one passes are all strictly higher. *)
Lemma sort_insert_ties (v : Z) (x : string * Bid) (l : list (string * Bid)) :
  filter (λ d : string * Bid, amount d.2 = v) (sort_insert by_amount_desc x l) =
  filter (λ d : string * Bid, amount d.2 = v) (x :: l).
Proof.
  induction l as [|y l IH]; simpl; [done|].
  case_bool_decide as Hxy; [done|].
  unfold by_amount_desc in Hxy.
  rewrite (filter_cons _ y), IH, !(filter_cons _ x), (filter_cons _ y).
  repeat case_decide; try done; lia.
Qed.

Lemma array_sort_ties (v : Z) (l : list (string * Bid)) :
  filter (λ d : string * Bid, amount d.2 = v) (array_sort by_amount_desc l) =
  filter (λ d : string * Bid, amount d.2 = v) l.
Proof.
  induction l as [|x l IH]; simpl; [done|].
  rewrite sort_insert_ties, !filter_cons, IH. done.
Qed.

Section reads.
Variable newDate : string → time_value.
Variable isValid : string → bool.

Lemma getAuctionDetails_Json_inv (id : string) (st st' : store) (a : Auction)
    (status : Z) (body : details_response) :
  auctions st !! id = Some a →
  getAuctionDetails isValid id st = (Json status body, st') →
  status = 200 ∧ st' = st ∧
  body = mkDetailsResponse true
           (id, set_bids a (array_sort by_amount_desc (populate st (bids a))))
           (array_sort by_amount_desc (populate st (bids a))).
Proof.
  intros Ha. unfold getAuctionDetails. rewrite Ha.
  destruct (isValid id); simpl; intros H; inversion H; done.
Qed.

(** X11: the bidders of a detail answer are exactly the Bid documents the
    auction's [bids] refer to: a reference that names no document is left
    out without an error, and no bid of another auction's list comes in. *)
Theorem details_bidders_are_the_stored_bids (id : string) (st st' : store)
    (a : Auction) (status : Z) (body : details_response) :
  auctions st !! id = Some a →
  getAuctionDetails isValid id st = (Json status body, st') →
  (∀ k b, (k, b) ∈ dres_bidders body ↔
          k ∈ bids a ∧ bidRecords st !! k = Some b) ∧
  (length (dres_bidders body) ≤ length (bids a))%nat ∧
  bids (dres_auctionItem body).2 = dres_bidders body.
Proof.
  intros Ha H.
  apply (getAuctionDetails_Json_inv _ _ _ _ _ _ Ha) in H as (_ & _ & ->). simpl.
  split; [|split; [|done]].
  - intros k b. rewrite (array_sort_Permutation by_amount_desc).
    apply populate_elem_of.
  - rewrite (array_sort_Permutation by_amount_desc). apply populate_length.
Qed.

(** X12: among the bidders of a detail answer, bids of the same amount come in
    the order of the auction's [bids]. *)
Theorem details_ties_keep_stored_order (id : string) (st st' : store)
    (a : Auction) (status : Z) (body : details_response) (v : Z) :
  auctions st !! id = Some a →
  getAuctionDetails isValid id st = (Json status body, st') →
  filter (λ d : string * Bid, amount d.2 = v) (dres_bidders body) =
  filter (λ d : string * Bid, amount d.2 = v) (populate st (bids a)).
Proof.
  intros Ha H.
  apply (getAuctionDetails_Json_inv _ _ _ _ _ _ Ha) in H as (_ & _ & ->). simpl.
  apply array_sort_ties.
Qed.

(** X13: getMyAuctionItems answers with the requester's auctions, all of them
    and no others, each once and with its [bids]. *)
Theorem my_items_are_the_requesters (uid : string) (st : store) :
  ∃ items,
    getMyAuctionItems uid st = (Json 200 (mkMyItemsResponse true items), st) ∧
    (∀ k a, (k, a) ∈ items ↔ auctions st !! k = Some a ∧ createdBy a = uid) ∧
    NoDup items.
Proof.
  eexists. split; [reflexivity|]. split.
  - intros k a. rewrite list_elem_of_filter, elem_of_map_to_list. simpl.
    split; intros [? ?]; done.
  - apply NoDup_filter, NoDup_map_to_list.
Qed.

(** X14: removeFromAuction deletes an existing auction whatever its state (its
    times, its bids, its winner), and deletes nothing else: the other
    auctions and the users are as before. *)
Theorem remove_deletes_that_auction_only (id : string) (st : store) (a : Auction) :
  isValid id = true →
  auctions st !! id = Some a →
  ∃ st',
    removeFromAuction isValid id st =
      (Json 200 (mkRemoveResponse true "Auction item deleted successfully."), st') ∧
    auctions st' !! id = None ∧
    (∀ k, k ≠ id → auctions st' !! k = auctions st !! k) ∧
    users st' = users st.
Proof.
  intros Hv Ha. eexists. unfold removeFromAuction. rewrite Hv, Ha. simpl.
  split; [reflexivity|]. simpl. split; [apply lookup_delete_eq|].
  split; [|done]. intros k Hk. by apply lookup_delete_ne.
Qed.

(** X15: once removeFromAuction has answered with success, the id is gone for
    every operation that looks it up: a second removal, the detail view and
    a republish are all answered "Auction not found." (404) and write
    nothing. *)
Theorem removed_auction_is_not_found (id : string) (st st' : store)
    (status : Z) (body : remove_response) :
  removeFromAuction isValid id st = (Json status body, st') →
  removeFromAuction isValid id st' =
    (Next (ErrorHandler "Auction not found." (Some 404)), st') ∧
  getAuctionDetails isValid id st' =
    (Next (ErrorHandler "Auction not found." (Some 404)), st') ∧
  (∀ env newStart newEnd uid,
     republishItem newDate isValid env
       (mkRepublishRequest id newStart newEnd uid) st' =
     (Next (ErrorHandler "Auction not found." (Some 404)), st')).
Proof.
  unfold removeFromAuction at 1. intros H.
  destruct (isValid id) eqn:Hv; simpl in H; [|discriminate].
  destruct (auctions st !! id) as [a|]; [|discriminate].
  inversion H; subst. clear H.
  assert (Hgone : auctions (with_auctions st (delete id (auctions st))) !! id = None)
    by apply lookup_delete_eq.
  split_and!.
  - unfold removeFromAuction. by rewrite Hv, Hgone.
  - unfold getAuctionDetails. by rewrite Hv, Hgone.
  - intros. unfold republishItem. simpl rp_id. by rewrite Hv, Hgone.
Qed.

End reads.

Lemma details_bidders_are_the_stored_bids_witness :
  (∀ k b, (k, b) ∈ tiedBidders ↔
          k ∈ [bid1; bid3; bid2; bid9] ∧ bidRecords tiedStore !! k = Some b) ∧
  (length tiedBidders ≤ 4)%nat ∧
  tiedBidders = tiedBidders.
Proof.
  refine (details_bidders_are_the_stored_bids isHexObjectId auctionA tiedStore
            tiedStore tiedAuction 200
            (mkDetailsResponse true (auctionA, set_bids tiedAuction tiedBidders)
                               tiedBidders) _ _).
  - vm_compute; reflexivity.
  - vm_compute; reflexivity.
Defined.

Lemma details_ties_keep_stored_order_witness :
  filter (λ d : string * Bid, amount d.2 = 150) tiedBidders =
  filter (λ d : string * Bid, amount d.2 = 150) (populate tiedStore (bids tiedAuction)).
Proof.
  refine (details_ties_keep_stored_order isHexObjectId auctionA tiedStore
            tiedStore tiedAuction 200
            (mkDetailsResponse true (auctionA, set_bids tiedAuction tiedBidders)
                               tiedBidders) 150 _ _).
  - vm_compute; reflexivity.
  - vm_compute; reflexivity.
Defined.

(** In the sample, the two bids of 150 stay in the order of the auction's
    list, [bid1] before [bid9]. *)
Example tied_bids_in_stored_order :
  (filter (λ d : string * Bid, amount d.2 = 150) tiedBidders).*1 = [bid1; bid9].
Proof. vm_compute. reflexivity. Qed.

Lemma remove_deletes_that_auction_only_witness :
  ∃ st',
    removeFromAuction isHexObjectId auctionA settledStore =
      (Json 200 (mkRemoveResponse true "Auction item deleted successfully."), st') ∧
    auctions st' !! auctionA = None ∧
    (∀ k, k ≠ auctionA → auctions st' !! k = auctions settledStore !! k) ∧
    users st' = users settledStore.
Proof.
  refine (remove_deletes_that_auction_only isHexObjectId auctionA settledStore
            (endedAuction (Some winner) true) _ _).
  - vm_compute; reflexivity.
  - vm_compute; reflexivity.
Defined.

Lemma removed_auction_is_not_found_witness :
  getAuctionDetails isHexObjectId auctionA removedStore =
    (Next (ErrorHandler "Auction not found." (Some 404)), removedStore).
Proof.
  refine (proj1 (proj2 (removed_auction_is_not_found sampleDate isHexObjectId
                          auctionA settledStore removedStore 200
                          (mkRemoveResponse true "Auction item deleted successfully.")
                          _))).
  vm_compute; reflexivity.
Defined.

(** * Further properties of republish *)

Section republish_more.
Variable newDate : string → time_value.
Variable isValid : string → bool.

(** Where a run of republishItem can stop, and the store it leaves there:
    at a guard or at the reversal (nothing written); at the rejected update
    of the auction (the reversal written); or past the update, with the bids
    deleted unless that write is rejected and the requester's commission
    cleared unless that write is rejected. *)
Lemma republishItem_stops (env : republish_env) (req : republish_request)
    (st st' : store) (o : outcome republish_response) :
  republishItem newDate isValid env req st = (o, st') →
  (st' = st ∧
   ((∃ message code, o = Next (ErrorHandler message code) ∧
                     (code = Some 400 ∨ code = Some 404 ∨ code = None)) ∨
    (∃ exn, o = Throws exn ∧
            (save_winner env = Some exn ∨ ∃ message, exn = TypeError message)))) ∨
  ∃ a st1,
    auctions st !! rp_id req = Some a ∧
    reverse_settlement (save_winner env) a st = inr st1 ∧
    ((∃ exn, update_auction env = Some exn ∧ o = Throws exn ∧ st' = st1) ∨
     (update_auction env = None ∧
      st' = (match clear_commission env with
             | None => clear_unpaidCommission (rp_user req)
             | Some _ => λ s, s
             end)
              ((match delete_bids env with
                | None => Bid_deleteMany (rp_id req)
                | Some _ => λ s, s
                end)
                 (with_auctions st1
                    (<[rp_id req := republish_update (rp_startTime req)
                                      (rp_endTime req) a]> (auctions st1)))) ∧
      ((∃ body, o = Json 200 body ∧ delete_bids env = None ∧
                clear_commission env = None) ∨
       (∃ exn, o = Throws exn ∧
               (delete_bids env = Some exn ∨ clear_commission env = Some exn))))).
Proof.
  unfold republishItem. intros H.
  destruct (isValid (rp_id req)); simpl in H;
    [|inversion H; left; split; [done|]; left; eauto 10].
  destruct (auctions st !! rp_id req) as [a|] eqn:Ha;
    [|inversion H; left; split; [done|]; left; eauto 10].
  destruct (time_gt _ _); [inversion H; left; split; [done|]; left; eauto 10|].
  destruct (negb (truthy (rp_startTime req)) || negb (truthy (rp_endTime req)));
    [inversion H; left; split; [done|]; left; eauto 10|].
  destruct (time_lt _ _); [inversion H; left; split; [done|]; left; eauto 10|].
  destruct (time_ge _ _); [inversion H; left; split; [done|]; left; eauto 10|].
  destruct (reverse_settlement (save_winner env) a st) as [exn|st1] eqn:Hr.
  { inversion H; subst. left. split; [done|]. right. exists exn. split; [done|].
    revert Hr. unfold reverse_settlement.
    repeat case_match; intros; simplify_eq; eauto. }
  right. exists a, st1. split; [done|]. split; [done|].
  destruct (reverse_settlement_auctions _ _ _ _ Hr) as [Hau _].
  unfold Auction_findByIdAndUpdate in H.
  destruct (update_auction env) as [exn|]; [inversion H; left; eauto|].
  rewrite Hau, Ha in H. right. split; [done|].
  destruct (delete_bids env) as [e1|], (clear_commission env) as [e2|];
    simpl in H; inversion H; subst; rewrite ?Hau;
    (split; [reflexivity|]); [right|right|right|left]; eauto 10.
  destruct (bids_reject_first env); eauto 10.
Qed.


(** X22: when the update of the auction (line 237) is rejected, the
    exception escapes after the winner's reversal has been saved: the
    winner's figures are reduced, the auction and the bids are as before. *)
Theorem republish_update_rejected_after_reversal (env : republish_env)
    (req : republish_request) (st : store) (a : Auction) (w : string) (u : User)
    (exn : js_error) :
  isValid (rp_id req) = true →
  auctions st !! rp_id req = Some a →
  time_gt (newDate (endTime a)) (TimeMs (now_active env)) = false →
  truthy (rp_startTime req) = true → truthy (rp_endTime req) = true →
  time_lt (newDate (rp_startTime req)) (TimeMs (now_window env)) = false →
  time_ge (newDate (rp_startTime req)) (newDate (rp_endTime req)) = false →
  highestBidder a = Some w →
  users st !! w = Some u →
  save_winner env = None →
  update_auction env = Some exn →
  ∃ st',
    republishItem newDate isValid env req st = (Throws exn, st') ∧
    auctions st' = auctions st ∧ bidRecords st' = bidRecords st ∧
    users st' !! w =
      Some (mkUser (SFsub 53 1024 (moneySpent u) (currentBid a))
                   (SFsub 53 1024 (auctionsWon u) (num 1))
                   (unpaidCommission u)) ∧
    (∀ k, k ≠ w → users st' !! k = users st !! k).
Proof.
  intros Hv Ha Hgt Hs He Hlt Hge Hw Hu Hsave Hup. eexists.
  unfold republishItem. rewrite Hv, Ha, Hgt, Hs, He, Hlt, Hge; simpl.
  unfold reverse_settlement. rewrite Hw, Hu, Hsave.
  unfold Auction_findByIdAndUpdate. rewrite Hup.
  split; [reflexivity|]. simpl. split; [done|]. split; [done|].
  split; [apply lookup_insert_eq|].
  intros k Hk. by apply lookup_insert_ne.
Qed.

(** X17: who asks plays no part in whether a republish goes through, nor in what
    it does to the auctions and the bids: the handler never compares the
    requester with the auction's [createdBy]. *)
Theorem republish_ignores_the_requester (env : republish_env)
    (id newStart newEnd uid1 uid2 : string) (st : store) :
  let r1 := republishItem newDate isValid env
              (mkRepublishRequest id newStart newEnd uid1) st in
  let r2 := republishItem newDate isValid env
              (mkRepublishRequest id newStart newEnd uid2) st in
  r1.1 = r2.1 ∧ auctions r1.2 = auctions r2.2 ∧ bidRecords r1.2 = bidRecords r2.2.
Proof.
  unfold republishItem, Auction_findByIdAndUpdate, Promise_all; simpl.
  repeat (case_match; simplify_eq; try done).
Qed.

(** X18: a successful republish keeps what describes the auction (title,
    description, category, condition, starting bid, image) and its owner,
    and leaves every other auction as it was. *)
Theorem republish_keeps_description_and_owner (env : republish_env)
    (req : republish_request) (st st' : store) (a : Auction) (status : Z)
    (body : republish_response) :
  auctions st !! rp_id req = Some a →
  republishItem newDate isValid env req st = (Json status body, st') →
  (∃ a', auctions st' !! rp_id req = Some a' ∧
         rres_auctionItem body = (rp_id req, a') ∧
         title a' = title a ∧ description a' = description a ∧
         category a' = category a ∧ condition a' = condition a ∧
         startingBid a' = startingBid a ∧ image a' = image a ∧
         createdBy a' = createdBy a) ∧
  (∀ k, k ≠ rp_id req → auctions st' !! k = auctions st !! k).
Proof.
  intros Ha H.
  destruct (republishItem_Json_body _ _ _ _ _ _ _ _ _ Ha H) as (-> & _).
  apply republishItem_Json_inv in H
    as (a0 & st1 & Hv & Ha0 & Hgt & Hs & He & Hlt & Hge & Hr & _ & ->).
  rewrite Ha in Ha0. inversion Ha0; subst a0.
  apply reverse_settlement_auctions in Hr as [Hau _].
  unfold republished, clear_unpaidCommission, Bid_deleteMany; simpl. split.
  - eexists. rewrite lookup_insert_eq. split; [reflexivity|]. done.
  - intros k Hk. rewrite lookup_insert_ne by done. by rewrite Hau.
Qed.

(** X19: after a successful republish whose new [endTime] is a date, any further
    republish of the same auction asked before that time is refused with
    "Auction is already active, cannot republish." and writes nothing. *)
Theorem republish_twice_refused (env env2 : republish_env)
    (req req2 : republish_request) (st st' : store) (status : Z)
    (body : republish_response) (e : Z) :
  republishItem newDate isValid env req st = (Json status body, st') →
  newDate (rp_endTime req) = TimeMs e →
  rp_id req2 = rp_id req →
  now_active env2 < e →
  republishItem newDate isValid env2 req2 st' =
    (Next (ErrorHandler "Auction is already active, cannot republish." (Some 400)),
     st').
Proof.
  intros H He Hid Hlt.
  apply republishItem_Json_inv in H
    as (a & st1 & Hv & _ & _ & _ & _ & _ & _ & _ & _ & ->).
  unfold republishItem at 1. rewrite Hid, Hv. simpl.
  unfold republished at 1, clear_unpaidCommission at 1, Bid_deleteMany at 1; simpl.
  rewrite lookup_insert_eq. simpl. rewrite He. simpl.
  by rewrite bool_decide_eq_true_2 by lia.
Qed.

(** X20: a republished auction whose new [startTime] and [endTime] are dates
    starts no earlier than the clock reading of line 212 and strictly before
    it ends. *)
Theorem republish_schedule_in_order (env : republish_env) (req : republish_request)
    (st st' : store) (status : Z) (body : republish_response) (s e : Z) :
  republishItem newDate isValid env req st = (Json status body, st') →
  newDate (rp_startTime req) = TimeMs s →
  newDate (rp_endTime req) = TimeMs e →
  now_window env ≤ s ∧ s < e.
Proof.
  intros H Hs He.
  apply republishItem_Json_inv in H
    as (a & st1 & _ & _ & _ & _ & _ & Hlt & Hge & _).
  rewrite Hs in Hlt, Hge. rewrite He in Hge. simpl in Hlt, Hge.
  apply bool_decide_eq_false in Hlt, Hge. lia.
Qed.

(** X21: whatever its outcome, republishItem neither adds nor removes a user,
    and the only user records it can change are the winner's and the
    requester's. *)
Theorem republish_touches_winner_and_requester_only (env : republish_env)
    (req : republish_request) (st st' : store) (a : Auction)
    (o : outcome republish_response) :
  auctions st !! rp_id req = Some a →
  republishItem newDate isValid env req st = (o, st') →
  dom (users st') = dom (users st) ∧
  (∀ k, highestBidder a ≠ Some k → k ≠ rp_user req →
        users st' !! k = users st !! k).
Proof.
  intros Ha H. apply republishItem_stops in H.
  destruct H as [(Hst & _)|(a0 & st1 & Ha0 & Hr & Hst')]; [by subst|].
  rewrite Ha in Ha0. inversion Ha0; subst a0.
  apply reverse_settlement_users in Hr.
  assert (Hst1 : dom (users st1) = dom (users st) ∧
                 ∀ k, highestBidder a ≠ Some k → users st1 !! k = users st !! k).
  { destruct (highestBidder a) as [w|]; [|by rewrite Hr].
    destruct Hr as (u & Hu & ->). split.
    - apply dom_insert_lookup_L. by exists u.
    - intros k Hk. rewrite lookup_insert_ne; [done|]. intros ->. by apply Hk. }
  destruct Hst1 as [Hdom Hother].
  destruct Hst' as [(exn & _ & _ & Hst')|(_ & Hst' & _)]; subst st';
    [split; [done|]; intros k Hk _; by apply Hother|].
  destruct (clear_commission env), (delete_bids env); simpl;
    rewrite ?dom_alter_L; (split; [done|]);
    intros k Hk Hreq; rewrite ?lookup_alter_ne by done; by apply Hother.
Qed.

End republish_more.


Lemma republish_update_rejected_after_reversal_witness :
  ∃ st',
    republishItem sampleDate isHexObjectId (republishEnvUpdateRejected jan2)
      republishRequest settledStore = (Throws castError, st') ∧
    auctions st' = auctions settledStore ∧
    bidRecords st' = bidRecords settledStore ∧
    users st' !! winner = Some (mkUser (num 500) (num 2) (num 10)) ∧
    (∀ k, k ≠ winner → users st' !! k = users settledStore !! k).
Proof.
  refine (republish_update_rejected_after_reversal sampleDate isHexObjectId
            (republishEnvUpdateRejected jan2) republishRequest settledStore
            (endedAuction (Some winner) true) winner
            (mkUser (num 700) (num 3) (num 10)) castError
            _ _ _ _ _ _ _ _ _ _ _).
  all: vm_compute; reflexivity.
Defined.

(** The client of that request is answered with status 400. *)
Example republish_update_rejected_status :
  response_status
    (republishItem sampleDate isHexObjectId (republishEnvUpdateRejected jan2)
       republishRequest settledStore).1 = Some 400.
Proof. vm_compute. reflexivity. Qed.

Lemma republish_keeps_description_and_owner_witness :
  (∃ a', auctions republishedStore !! auctionA = Some a' ∧
         rres_auctionItem republishedBody = (auctionA, a') ∧
         title a' = "Lamp" ∧ description a' = "Brass desk lamp" ∧
         category a' = "Furniture" ∧ condition a' = "Used" ∧
         startingBid a' = "100" ∧ image a' = sampleImage ∧
         createdBy a' = seller) ∧
  (∀ k, k ≠ auctionA → auctions republishedStore !! k = auctions settledStore !! k).
Proof.
  refine (republish_keeps_description_and_owner sampleDate isHexObjectId
            (republishEnv jan2) republishRequest settledStore republishedStore
            (endedAuction (Some winner) true) 200 republishedBody _ _).
  - vm_compute; reflexivity.
  - vm_compute; reflexivity.
Defined.

Lemma republish_twice_refused_witness :
  republishItem sampleDate isHexObjectId (republishEnv jan3) republishByOther
    republishedStore =
    (Next (ErrorHandler "Auction is already active, cannot republish." (Some 400)),
     republishedStore).
Proof.
  refine (republish_twice_refused sampleDate isHexObjectId (republishEnv jan2)
            (republishEnv jan3) republishRequest republishByOther settledStore
            republishedStore 200 republishedBody 1893715200000 _ _ _ _).
  - vm_compute; reflexivity.
  - vm_compute; reflexivity.
  - reflexivity.
  - vm_compute; reflexivity.
Defined.

Lemma republish_schedule_in_order_witness : jan2 ≤ jan3 ∧ jan3 < 1893715200000.
Proof.
  refine (republish_schedule_in_order sampleDate isHexObjectId (republishEnv jan2)
            republishRequest settledStore republishedStore 200 republishedBody
            jan3 1893715200000 _ _ _).
  - vm_compute; reflexivity.
  - vm_compute; reflexivity.
  - vm_compute; reflexivity.
Defined.

Lemma republish_touches_winner_and_requester_only_witness :
  dom (users republishedStore) = dom (users settledStore) ∧
  (∀ k, Some winner ≠ Some k → k ≠ seller →
        users republishedStore !! k = users settledStore !! k).
Proof.
  refine (republish_touches_winner_and_requester_only sampleDate isHexObjectId
            (republishEnv jan2) republishRequest settledStore republishedStore
            (endedAuction (Some winner) true) (Json 200 republishedBody) _ _).
  - vm_compute; reflexivity.
  - vm_compute; reflexivity.
Defined.
